(** * The hollow kubelet of kubemark

    A shallow embedding of [pkg/kubemark/hollow_kubelet.go]: the builder
    [GetHollowKubeletConfig], the constructor [NewHollowKubelet] and the
    method [Run], followed by the properties its description states.

    The Go code works on structs reached through pointers, calls into
    packages that live elsewhere in the tree and may end the process; the
    embedding keeps all three visible:
    - structs are records, pointers are addresses into typed stores;
    - functions are computations in a monad [M] over the machine [State],
      whose result says how the call ended ([Outcome]);
    - code of other packages is taken as given, through the classes
      [ExternalTypes] and [ExternalCode]. *)

From Stdlib Require Import ZArith Lia.
From stdpp Require Import base option list strings pretty.

(** ** Go values *)

(** Go's [int]; the conversion [int32(x)] keeps the low 32 bits and reads
    them as a two's complement number. *)
Definition int : Type := Z.
Bind Scope Z_scope with int.

Definition int32 (x : Z) : Z := ((x + 2 ^ 31) mod 2 ^ 32 - 2 ^ 31)%Z.

Definition in_int32 (x : Z) : Prop := (- 2 ^ 31 <= x < 2 ^ 31)%Z.

(** [time.Duration] counts nanoseconds. *)
Definition time_Second : Z := 1000000000%Z.
Definition time_Minute : Z := (60 * time_Second)%Z.

(** [metav1.Duration] wraps a [time.Duration]. *)
Record metav1_Duration : Type := { Duration : Z }.

(** An [error] is known by its message, which is what [%v] prints. *)
Definition error : Type := string.

(** A pointer is [nil] or an address in the store of its type. *)
Definition ptr : Type := option nat.

(** What the runtime raises when [nil] is dereferenced. *)
Definition nil_dereference : error :=
  "runtime error: invalid memory address or nil pointer dereference".

(** ** Types declared in other packages *)

Class ExternalTypes : Type := {
  (** the state of the host that code outside this file reads and writes:
      the file system, the network, the clock *)
  World : Type;
  (** [volume.VolumePlugin] *)
  VolumePlugin : Type;
  (** the fields of [options.KubeletFlags] this file never assigns *)
  OtherKubeletFlags : Type;
  (** the fields of [kubeletconfig.KubeletConfiguration] this file never
      assigns *)
  OtherKubeletConfiguration : Type;
}.

(** Modelled from the spec: the interface types of [kubelet.Dependencies]
    ([kubecontainer.OSInterface], [oom.OOMAdjuster], [mount.Interface],
    [subpath.Interface], [hostutil.HostUtils]) and their implementations are
    declared in other packages.  The spec calls four of the values built
    here "fakes/no-ops (fake OS, fake OOM adjuster, fake subpath handler,
    fake host-util) standing in for real system integrations"; each type
    lists the constructor this file calls, nil, and what a caller that wants
    the real integration would put there. *)
Inductive kubecontainer_OSInterface : Type :=
| NoOS                         (* nil *)
| RealOS                       (* &kubecontainer.RealOS{} *)
| FakeOS.                      (* &containertest.FakeOS{} *)

Inductive oom_OOMAdjuster : Type :=
| NoOOMAdjuster                (* nil *)
| NewOOMAdjuster               (* oom.NewOOMAdjuster() *)
| NewFakeOOMAdjuster.          (* oom.NewFakeOOMAdjuster() *)

Inductive mount_Interface : Type :=
| NoMounter                    (* nil *)
| mount_New (mounterPath : string)   (* mount.New(mounterPath) *)
| FakeMounter.                 (* &mount.FakeMounter{} *)

Inductive subpath_Interface : Type :=
| NoSubpath                    (* nil *)
| subpath_New (m : mount_Interface)    (* subpath.New(m) *)
| FakeSubpath.                 (* &subpath.FakeSubpath{} *)

Inductive hostutil_HostUtils : Type :=
| NoHostUtil                   (* nil *)
| NewHostUtil                  (* hostutil.NewHostUtil() *)
| NewFakeHostUtil (fs : list (string * string)).
                               (* hostutil.NewFakeHostUtil(fs); nil is [] *)

Definition is_fake_os (o : kubecontainer_OSInterface) : bool :=
  match o with FakeOS => true | _ => false end.
Definition is_fake_oom (o : oom_OOMAdjuster) : bool :=
  match o with NewFakeOOMAdjuster => true | _ => false end.
Definition is_fake_subpath (s : subpath_Interface) : bool :=
  match s with FakeSubpath => true | _ => false end.
Definition is_fake_hostutil (h : hostutil_HostUtils) : bool :=
  match h with NewFakeHostUtil _ => true | _ => false end.

Section Structs.
Context {T : ExternalTypes}.

(** [options.KubeletFlags], as far as this file writes it. *)
Record options_KubeletFlags : Type := {
  EnableServer : bool;
  RootDirectory : string;
  HostnameOverride : string;
  MinimumGCAge : metav1_Duration;
  MaxContainerCount : Z;                 (* int32 *)
  MaxPerPodContainerCount : Z;           (* int32 *)
  RegisterNode : bool;
  RegisterSchedulable : bool;
  ProviderID : string;
  OtherFlags : OtherKubeletFlags;
}.

(** [kubeletconfig.KubeletConfiguration], as far as this file writes it. *)
Record kubeletconfig_KubeletConfiguration : Type := {
  StaticPodURL : string;
  Address : string;
  Port : Z;                              (* int32 *)
  ReadOnlyPort : Z;                      (* int32 *)
  StaticPodPath : string;
  FileCheckFrequency : metav1_Duration;
  HTTPCheckFrequency : metav1_Duration;
  NodeStatusUpdateFrequency : metav1_Duration;
  NodeStatusReportFrequency : metav1_Duration;
  SyncFrequency : metav1_Duration;
  EvictionPressureTransitionPeriod : metav1_Duration;
  MaxPods : Z;                           (* int32 *)
  PodsPerCore : Z;                       (* int32 *)
  ClusterDNS : list string;
  ImageGCHighThresholdPercent : Z;       (* int32 *)
  ImageGCLowThresholdPercent : Z;        (* int32 *)
  VolumeStatsAggPeriod : metav1_Duration;
  CgroupRoot : string;
  CPUCFSQuota : bool;
  EnableControllerAttachDetach : bool;
  EnableDebuggingHandlers : bool;
  CgroupsPerQOS : bool;
  HairpinMode : string;
  MaxOpenFiles : Z;                      (* int64 *)
  RegistryBurst : Z;                     (* int32 *)
  RegistryPullQPS : Z;                   (* int32 *)
  ResolverConfig : string;
  KubeletCgroups : string;
  SerializeImagePulls : bool;
  SystemCgroups : string;
  ProtectKernelDefaults : bool;
  OtherConfiguration : OtherKubeletConfiguration;
}.

(** [kubelet.Dependencies]: the fields the composite literal of
    [NewHollowKubelet] names; the others get their zero value and are not
    read here.  Clients and the remaining collaborators are handles to
    objects of other packages. *)
Record kubelet_Dependencies : Type := {
  KubeClient : ptr;
  HeartbeatClient : ptr;
  DockerClientConfig : ptr;
  CAdvisorInterface : ptr;
  Cloud : ptr;
  OSInterface : kubecontainer_OSInterface;
  ContainerManager : ptr;
  VolumePlugins : list VolumePlugin;
  TLSOptions : ptr;
  OOMAdjuster : oom_OOMAdjuster;
  Mounter : mount_Interface;
  Subpather : subpath_Interface;
  HostUtil : hostutil_HostUtils;
}.

(** [options.KubeletServer]: both structs by value. *)
Record options_KubeletServer : Type := {
  Server_KubeletFlags : options_KubeletFlags;
  Server_KubeletConfiguration : kubeletconfig_KubeletConfiguration;
}.

(** [HollowKubelet]: three pointers. *)
Record HollowKubelet : Type := {
  KubeletFlags : ptr;          (* to options.KubeletFlags *)
  KubeletConfiguration : ptr;  (* to kubeletconfig.KubeletConfiguration *)
  KubeletDeps : ptr;           (* to kubelet.Dependencies *)
}.

End Structs.

(** ** Assignment to one field *)

(** [field_setter eta proj] builds [fun v r => r with proj := v] out of the
    eta-expansion [eta] of the record. *)
Ltac field_setter eta proj :=
  let body := eval cbv delta [eta] in eta in
  lazymatch eval pattern proj in body with
  | ?F _ => let t := eval cbv beta in (fun v r => F (fun _ => v) r) in exact t
  end.

Section Setters.
Context {T : ExternalTypes}.

Definition flags_eta (r : options_KubeletFlags) : options_KubeletFlags :=
  Build_options_KubeletFlags
    (EnableServer r) (RootDirectory r) (HostnameOverride r) (MinimumGCAge r)
    (MaxContainerCount r) (MaxPerPodContainerCount r) (RegisterNode r)
    (RegisterSchedulable r) (ProviderID r) (OtherFlags r).

Definition config_eta (r : kubeletconfig_KubeletConfiguration) :
  kubeletconfig_KubeletConfiguration :=
  Build_kubeletconfig_KubeletConfiguration
    (StaticPodURL r) (Address r) (Port r) (ReadOnlyPort r) (StaticPodPath r)
    (FileCheckFrequency r) (HTTPCheckFrequency r)
    (NodeStatusUpdateFrequency r) (NodeStatusReportFrequency r)
    (SyncFrequency r) (EvictionPressureTransitionPeriod r) (MaxPods r)
    (PodsPerCore r) (ClusterDNS r) (ImageGCHighThresholdPercent r)
    (ImageGCLowThresholdPercent r) (VolumeStatsAggPeriod r) (CgroupRoot r)
    (CPUCFSQuota r) (EnableControllerAttachDetach r)
    (EnableDebuggingHandlers r) (CgroupsPerQOS r) (HairpinMode r)
    (MaxOpenFiles r) (RegistryBurst r) (RegistryPullQPS r) (ResolverConfig r)
    (KubeletCgroups r) (SerializeImagePulls r) (SystemCgroups r)
    (ProtectKernelDefaults r) (OtherConfiguration r).

(** [f.X = v] on a [KubeletFlags] value. *)
Definition set_EnableServer : bool -> options_KubeletFlags -> options_KubeletFlags.
Proof. field_setter flags_eta EnableServer. Defined.
Definition set_RootDirectory : string -> options_KubeletFlags -> options_KubeletFlags.
Proof. field_setter flags_eta RootDirectory. Defined.
Definition set_HostnameOverride : string -> options_KubeletFlags -> options_KubeletFlags.
Proof. field_setter flags_eta HostnameOverride. Defined.
Definition set_MinimumGCAge : metav1_Duration -> options_KubeletFlags -> options_KubeletFlags.
Proof. field_setter flags_eta MinimumGCAge. Defined.
Definition set_MaxContainerCount : Z -> options_KubeletFlags -> options_KubeletFlags.
Proof. field_setter flags_eta MaxContainerCount. Defined.
Definition set_MaxPerPodContainerCount : Z -> options_KubeletFlags -> options_KubeletFlags.
Proof. field_setter flags_eta MaxPerPodContainerCount. Defined.
Definition set_RegisterNode : bool -> options_KubeletFlags -> options_KubeletFlags.
Proof. field_setter flags_eta RegisterNode. Defined.
Definition set_RegisterSchedulable : bool -> options_KubeletFlags -> options_KubeletFlags.
Proof. field_setter flags_eta RegisterSchedulable. Defined.
Definition set_ProviderID : string -> options_KubeletFlags -> options_KubeletFlags.
Proof. field_setter flags_eta ProviderID. Defined.

(** [c.X = v] on a [KubeletConfiguration] value. *)
Definition set_StaticPodURL :
  string -> kubeletconfig_KubeletConfiguration -> kubeletconfig_KubeletConfiguration.
Proof. field_setter config_eta StaticPodURL. Defined.
Definition set_Address :
  string -> kubeletconfig_KubeletConfiguration -> kubeletconfig_KubeletConfiguration.
Proof. field_setter config_eta Address. Defined.
Definition set_Port :
  Z -> kubeletconfig_KubeletConfiguration -> kubeletconfig_KubeletConfiguration.
Proof. field_setter config_eta Port. Defined.
Definition set_ReadOnlyPort :
  Z -> kubeletconfig_KubeletConfiguration -> kubeletconfig_KubeletConfiguration.
Proof. field_setter config_eta ReadOnlyPort. Defined.
Definition set_StaticPodPath :
  string -> kubeletconfig_KubeletConfiguration -> kubeletconfig_KubeletConfiguration.
Proof. field_setter config_eta StaticPodPath. Defined.
Definition set_FileCheckFrequency :
  metav1_Duration -> kubeletconfig_KubeletConfiguration -> kubeletconfig_KubeletConfiguration.
Proof. field_setter config_eta FileCheckFrequency. Defined.
Definition set_HTTPCheckFrequency :
  metav1_Duration -> kubeletconfig_KubeletConfiguration -> kubeletconfig_KubeletConfiguration.
Proof. field_setter config_eta HTTPCheckFrequency. Defined.
Definition set_NodeStatusUpdateFrequency :
  metav1_Duration -> kubeletconfig_KubeletConfiguration -> kubeletconfig_KubeletConfiguration.
Proof. field_setter config_eta NodeStatusUpdateFrequency. Defined.
Definition set_NodeStatusReportFrequency :
  metav1_Duration -> kubeletconfig_KubeletConfiguration -> kubeletconfig_KubeletConfiguration.
Proof. field_setter config_eta NodeStatusReportFrequency. Defined.
Definition set_SyncFrequency :
  metav1_Duration -> kubeletconfig_KubeletConfiguration -> kubeletconfig_KubeletConfiguration.
Proof. field_setter config_eta SyncFrequency. Defined.
Definition set_EvictionPressureTransitionPeriod :
  metav1_Duration -> kubeletconfig_KubeletConfiguration -> kubeletconfig_KubeletConfiguration.
Proof. field_setter config_eta EvictionPressureTransitionPeriod. Defined.
Definition set_MaxPods :
  Z -> kubeletconfig_KubeletConfiguration -> kubeletconfig_KubeletConfiguration.
Proof. field_setter config_eta MaxPods. Defined.
Definition set_PodsPerCore :
  Z -> kubeletconfig_KubeletConfiguration -> kubeletconfig_KubeletConfiguration.
Proof. field_setter config_eta PodsPerCore. Defined.
Definition set_ClusterDNS :
  (list string) -> kubeletconfig_KubeletConfiguration -> kubeletconfig_KubeletConfiguration.
Proof. field_setter config_eta ClusterDNS. Defined.
Definition set_ImageGCHighThresholdPercent :
  Z -> kubeletconfig_KubeletConfiguration -> kubeletconfig_KubeletConfiguration.
Proof. field_setter config_eta ImageGCHighThresholdPercent. Defined.
Definition set_ImageGCLowThresholdPercent :
  Z -> kubeletconfig_KubeletConfiguration -> kubeletconfig_KubeletConfiguration.
Proof. field_setter config_eta ImageGCLowThresholdPercent. Defined.
Definition set_VolumeStatsAggPeriod :
  metav1_Duration -> kubeletconfig_KubeletConfiguration -> kubeletconfig_KubeletConfiguration.
Proof. field_setter config_eta VolumeStatsAggPeriod. Defined.
Definition set_CgroupRoot :
  string -> kubeletconfig_KubeletConfiguration -> kubeletconfig_KubeletConfiguration.
Proof. field_setter config_eta CgroupRoot. Defined.
Definition set_CPUCFSQuota :
  bool -> kubeletconfig_KubeletConfiguration -> kubeletconfig_KubeletConfiguration.
Proof. field_setter config_eta CPUCFSQuota. Defined.
Definition set_EnableControllerAttachDetach :
  bool -> kubeletconfig_KubeletConfiguration -> kubeletconfig_KubeletConfiguration.
Proof. field_setter config_eta EnableControllerAttachDetach. Defined.
Definition set_EnableDebuggingHandlers :
  bool -> kubeletconfig_KubeletConfiguration -> kubeletconfig_KubeletConfiguration.
Proof. field_setter config_eta EnableDebuggingHandlers. Defined.
Definition set_CgroupsPerQOS :
  bool -> kubeletconfig_KubeletConfiguration -> kubeletconfig_KubeletConfiguration.
Proof. field_setter config_eta CgroupsPerQOS. Defined.
Definition set_HairpinMode :
  string -> kubeletconfig_KubeletConfiguration -> kubeletconfig_KubeletConfiguration.
Proof. field_setter config_eta HairpinMode. Defined.
Definition set_MaxOpenFiles :
  Z -> kubeletconfig_KubeletConfiguration -> kubeletconfig_KubeletConfiguration.
Proof. field_setter config_eta MaxOpenFiles. Defined.
Definition set_RegistryBurst :
  Z -> kubeletconfig_KubeletConfiguration -> kubeletconfig_KubeletConfiguration.
Proof. field_setter config_eta RegistryBurst. Defined.
Definition set_RegistryPullQPS :
  Z -> kubeletconfig_KubeletConfiguration -> kubeletconfig_KubeletConfiguration.
Proof. field_setter config_eta RegistryPullQPS. Defined.
Definition set_ResolverConfig :
  string -> kubeletconfig_KubeletConfiguration -> kubeletconfig_KubeletConfiguration.
Proof. field_setter config_eta ResolverConfig. Defined.
Definition set_KubeletCgroups :
  string -> kubeletconfig_KubeletConfiguration -> kubeletconfig_KubeletConfiguration.
Proof. field_setter config_eta KubeletCgroups. Defined.
Definition set_SerializeImagePulls :
  bool -> kubeletconfig_KubeletConfiguration -> kubeletconfig_KubeletConfiguration.
Proof. field_setter config_eta SerializeImagePulls. Defined.
Definition set_SystemCgroups :
  string -> kubeletconfig_KubeletConfiguration -> kubeletconfig_KubeletConfiguration.
Proof. field_setter config_eta SystemCgroups. Defined.
Definition set_ProtectKernelDefaults :
  bool -> kubeletconfig_KubeletConfiguration -> kubeletconfig_KubeletConfiguration.
Proof. field_setter config_eta ProtectKernelDefaults. Defined.

(** The fields this file never assigns, replaced as a whole. *)
Definition set_OtherFlags :
  OtherKubeletFlags -> options_KubeletFlags -> options_KubeletFlags.
Proof. field_setter flags_eta OtherFlags. Defined.
Definition set_OtherConfiguration :
  OtherKubeletConfiguration -> kubeletconfig_KubeletConfiguration ->
  kubeletconfig_KubeletConfiguration.
Proof. field_setter config_eta OtherConfiguration. Defined.

End Setters.

(** ** The machine *)

Section Machine.
Context {T : ExternalTypes}.

(** Calls that leave this file and act on the host or on the log, in the
    order they are made. *)
Inductive Event : Type :=
| MakeTempDirOrDie_call (prefix baseDir : string)
| Infof_call (msg : string)
| RunKubelet_call (s : options_KubeletServer) (kubeDeps : ptr) (runOnce : bool)
| Fatalf_call (msg : string).

(** One store per struct type reached through a pointer, the host and the
    calls made so far. *)
Record State : Type := {
  flagsCells : list options_KubeletFlags;
  configCells : list kubeletconfig_KubeletConfiguration;
  depsCells : list kubelet_Dependencies;
  hollowCells : list HollowKubelet;
  world : World;
  trace : list Event;
}.

Definition state_eta (s : State) : State :=
  Build_State (flagsCells s) (configCells s) (depsCells s) (hollowCells s)
    (world s) (trace s).

Definition set_flagsCells : list options_KubeletFlags -> State -> State.
Proof. field_setter state_eta flagsCells. Defined.
Definition set_configCells :
  list kubeletconfig_KubeletConfiguration -> State -> State.
Proof. field_setter state_eta configCells. Defined.
Definition set_depsCells : list kubelet_Dependencies -> State -> State.
Proof. field_setter state_eta depsCells. Defined.
Definition set_hollowCells : list HollowKubelet -> State -> State.
Proof. field_setter state_eta hollowCells. Defined.
Definition set_world : World -> State -> State.
Proof. field_setter state_eta world. Defined.
Definition set_trace : list Event -> State -> State.
Proof. field_setter state_eta trace. Defined.

(** How a call ends: it returns a value, it panics, the process exits, or
    the goroutine is parked for ever.  Each carries the state reached. *)
Inductive Outcome (A : Type) : Type :=
| Returned (a : A) (s : State)
| Panicked (e : error) (s : State)
| Exited (s : State)
| Blocked (s : State).

Definition final_state {A : Type} (o : Outcome A) : State :=
  match o with
  | Returned _ _ s | Panicked _ _ s | Exited _ s | Blocked _ s => s
  end.

Definition returns {A : Type} (o : Outcome A) : bool :=
  match o with Returned _ _ _ => true | _ => false end.

Definition M (A : Type) : Type := State -> Outcome A.

#[export] Instance M_ret : MRet M := fun A a s => Returned A a s.

#[export] Instance M_bind : MBind M := fun A B k m s =>
  match m s with
  | Returned _ a s' => k a s'
  | Panicked _ e s' => Panicked B e s'
  | Exited _ s' => Exited B s'
  | Blocked _ s' => Blocked B s'
  end.

(** [panic(err)] *)
Definition panic {A : Type} (e : error) : M A := fun s => Panicked A e s.

(** [select {}]: a select without cases has none that can proceed. *)
Definition select_no_cases {A : Type} : M A := fun s => Blocked A s.

Definition log (ev : Event) (s : State) : State :=
  set_trace (trace s ++ [ev]) s.

(** [klog.Infof] writes a line; [klog.Fatalf] writes a line and exits. *)
Definition klog_Infof (msg : string) : M unit :=
  fun s => Returned unit tt (log (Infof_call msg) s).

Definition klog_Fatalf {A : Type} (msg : string) : M A :=
  fun s => Exited A (log (Fatalf_call msg) s).

(** Allocation appends a cell; its address is the old length. *)
Definition alloc_flags (v : options_KubeletFlags) : M ptr := fun s =>
  Returned ptr (Some (length (flagsCells s)))
    (set_flagsCells (flagsCells s ++ [v]) s).

Definition alloc_config (v : kubeletconfig_KubeletConfiguration) : M ptr :=
  fun s =>
  Returned ptr (Some (length (configCells s)))
    (set_configCells (configCells s ++ [v]) s).

Definition alloc_deps (v : kubelet_Dependencies) : M ptr := fun s =>
  Returned ptr (Some (length (depsCells s)))
    (set_depsCells (depsCells s ++ [v]) s).

Definition alloc_hollow (v : HollowKubelet) : M ptr := fun s =>
  Returned ptr (Some (length (hollowCells s)))
    (set_hollowCells (hollowCells s ++ [v]) s).

(** Reading through [p]: the cell, or a panic when [p] is nil (or points nowhere). *)
Definition deref {A : Type} (cells : State -> list A) (p : ptr) : M A :=
  fun s =>
  match p ≫= (cells s !!.) with
  | Some v => Returned A v s
  | None => Panicked A nil_dereference s
  end.

Definition load_flags : ptr -> M options_KubeletFlags := deref flagsCells.
Definition load_config : ptr -> M kubeletconfig_KubeletConfiguration :=
  deref configCells.
Definition load_hollow : ptr -> M HollowKubelet := deref hollowCells.

(** [p.X = v]: read the cell, write it back with the field changed. *)
Definition assign_flags (p : ptr)
    (upd : options_KubeletFlags -> options_KubeletFlags) : M unit :=
  fun s =>
  match p with
  | Some a =>
      match flagsCells s !! a with
      | Some v =>
          Returned unit tt (set_flagsCells (<[a := upd v]> (flagsCells s)) s)
      | None => Panicked unit nil_dereference s
      end
  | None => Panicked unit nil_dereference s
  end.

Definition assign_config (p : ptr)
    (upd : kubeletconfig_KubeletConfiguration ->
           kubeletconfig_KubeletConfiguration) : M unit :=
  fun s =>
  match p with
  | Some a =>
      match configCells s !! a with
      | Some v =>
          Returned unit tt (set_configCells (<[a := upd v]> (configCells s)) s)
      | None => Panicked unit nil_dereference s
      end
  | None => Panicked unit nil_dereference s
  end.

(** What a pointer points to in a state, when it points to something. *)
Definition flags_at (s : State) (p : ptr) : option options_KubeletFlags :=
  p ≫= (flagsCells s !!.).
Definition config_at (s : State) (p : ptr) :
    option kubeletconfig_KubeletConfiguration :=
  p ≫= (configCells s !!.).
Definition deps_at (s : State) (p : ptr) : option kubelet_Dependencies :=
  p ≫= (depsCells s !!.).
Definition hollow_at (s : State) (p : ptr) : option HollowKubelet :=
  p ≫= (hollowCells s !!.).

(** The calls into the runtime found in a trace, oldest first. *)
Definition RunKubelet_calls (tr : list Event) :
    list (options_KubeletServer * ptr * bool) :=
  omap (fun ev =>
          match ev with
          | RunKubelet_call srv d once => Some (srv, d, once)
          | _ => None
          end) tr.

End Machine.

Arguments Returned {_ _} _ _.
Arguments Panicked {_ _} _ _.
Arguments Exited {_ _} _.
Arguments Blocked {_ _} _.

(** ** Code of other packages *)

(** How a call into the runtime ends: it comes back with a result, it
    panics, it ends the process, or it never comes back. *)
Inductive CallEnd (A : Type) : Type :=
| CameBack (a : A)
| PanickedInside (e : error)
| ExitedInside
| BlockedInside.

Arguments CameBack {_} _.
Arguments PanickedInside {_} _.
Arguments ExitedInside {_}.
Arguments BlockedInside {_}.

(** What this file calls and does not define.  The constructors and the
    probes are taken by their signatures: they return to their caller, and
    [NewKubeletConfiguration] reports trouble through its [error] result.
    [MakeTempDirOrDie] has no such result: as its name says it yields the
    new directory or ends the process ([None]).  [RunKubelet] starts the
    whole runtime: it may come back with nil or an error, and it may as well
    panic, end the process or never come back.  It is handed the server
    struct by value and the dependencies by pointer, so whichever way it
    ends it can have written the host and the dependencies cells. *)
Class ExternalCode {T : ExternalTypes} : Type := {
  MakeTempDirOrDie_impl :
    string -> string -> World -> option (string * World);
  NewKubeletFlags_defaults : options_KubeletFlags;
  NewKubeletConfiguration_defaults :
    kubeletconfig_KubeletConfiguration + error;
  emptydir_ProbeVolumePlugins : list VolumePlugin;
  secret_ProbeVolumePlugins : list VolumePlugin;
  projected_ProbeVolumePlugins : list VolumePlugin;
  kubeletconfig_HairpinVeth : string;
  kubetypes_ResolvConfDefault : string;
  RunKubelet_impl :
    options_KubeletServer -> ptr -> bool ->
    list kubelet_Dependencies * World ->
    CallEnd (option error) * (list kubelet_Dependencies * World);
}.

Section Program.
Context {T : ExternalTypes} {X : ExternalCode}.

(** [utils.MakeTempDirOrDie(prefix, baseDir)] *)
Definition utils_MakeTempDirOrDie (prefix baseDir : string) : M string :=
  fun s =>
  let s' := log (MakeTempDirOrDie_call prefix baseDir) s in
  match MakeTempDirOrDie_impl prefix baseDir (world s) with
  | Some (dir, w) => Returned dir (set_world w s')
  | None => Exited s'
  end.

(** [options.NewKubeletFlags()]: a fresh struct holding the defaults. *)
Definition options_NewKubeletFlags : M ptr :=
  alloc_flags NewKubeletFlags_defaults.

(** [options.NewKubeletConfiguration()]: a fresh struct holding the
    defaults and a nil error, or nil and the error. *)
Definition options_NewKubeletConfiguration : M (ptr * option error) :=
  match NewKubeletConfiguration_defaults with
  | inl c => p ← alloc_config c; mret (p, None)
  | inr e => mret (None, Some e)
  end.

(** [kubeletapp.RunKubelet(kubeServer, kubeDeps, runOnce)] *)
Definition kubeletapp_RunKubelet (kubeServer : options_KubeletServer)
    (kubeDeps : ptr) (runOnce : bool) : M (option error) :=
  fun s =>
  let s' := log (RunKubelet_call kubeServer kubeDeps runOnce) s in
  let '(how, (deps, w)) :=
    RunKubelet_impl kubeServer kubeDeps runOnce (depsCells s, world s) in
  let s'' := set_world w (set_depsCells deps s') in
  match how with
  | CameBack err => Returned err s''
  | PanickedInside e => Panicked e s''
  | ExitedInside => Exited s''
  | BlockedInside => Blocked s''
  end.

(** [NewHollowKubelet], lines 52-87. *)
Definition NewHollowKubelet
    (flags config client heartbeatClient cadvisorInterface
     dockerClientConfig containerManager : ptr) : M ptr :=
  let volumePlugins := emptydir_ProbeVolumePlugins in
  let volumePlugins := volumePlugins ++ secret_ProbeVolumePlugins in
  let volumePlugins := volumePlugins ++ projected_ProbeVolumePlugins in
  d ← alloc_deps {|
         KubeClient := client;
         HeartbeatClient := heartbeatClient;
         DockerClientConfig := dockerClientConfig;
         CAdvisorInterface := cadvisorInterface;
         Cloud := None;
         OSInterface := FakeOS;
         ContainerManager := containerManager;
         VolumePlugins := volumePlugins;
         TLSOptions := None;
         OOMAdjuster := NewFakeOOMAdjuster;
         Mounter := mount_New "";
         Subpather := FakeSubpath;
         HostUtil := NewFakeHostUtil [];
       |};
  alloc_hollow {|
    KubeletFlags := flags;
    KubeletConfiguration := config;
    KubeletDeps := d;
  |}.

(** [Run], the method of the pointer to [HollowKubelet], lines 90-98. *)
Definition Run (hk : ptr) : M unit :=
  h ← load_hollow hk;
  flags ← load_flags (KubeletFlags h);
  config ← load_config (KubeletConfiguration h);
  err ← kubeletapp_RunKubelet
          {| Server_KubeletFlags := flags;
             Server_KubeletConfiguration := config |}
          (KubeletDeps h) false;
  match err with
  | Some e =>
      klog_Fatalf ("Failed to run HollowKubelet: " +:+ e +:+ ". Exiting.")
  | None => mret tt
  end;;
  select_no_cases.

(** [GetHollowKubeletConfig], lines 102-167. *)
Definition GetHollowKubeletConfig (nodeName : string)
    (kubeletPort kubeletReadOnlyPort maxPods podsPerCore : int) :
    M (ptr * ptr) :=
  testRootDir ← utils_MakeTempDirOrDie "hollow-kubelet." "";
  podFilePath ← utils_MakeTempDirOrDie "static-pods" testRootDir;
  klog_Infof ("Using " +:+ testRootDir +:+ " as root dir for hollow-kubelet");;

  f ← options_NewKubeletFlags;
  assign_flags f (set_EnableServer true);;
  assign_flags f (set_RootDirectory testRootDir);;
  assign_flags f (set_HostnameOverride nodeName);;
  assign_flags f (set_MinimumGCAge {| Duration := 1 * time_Minute |});;
  assign_flags f (set_MaxContainerCount 100);;
  assign_flags f (set_MaxPerPodContainerCount 2);;
  assign_flags f (set_RegisterNode true);;
  assign_flags f (set_RegisterSchedulable true);;
  assign_flags f (set_ProviderID ("kubemark://" +:+ nodeName));;

  '(c, err) ← options_NewKubeletConfiguration;
  match err with
  | Some e => panic e
  | None => mret tt
  end;;

  assign_config c (set_StaticPodURL "");;
  assign_config c (set_Address "0.0.0.0");;
  assign_config c (set_Port (int32 kubeletPort));;
  assign_config c (set_ReadOnlyPort (int32 kubeletReadOnlyPort));;
  assign_config c (set_StaticPodPath podFilePath);;
  assign_config c (set_FileCheckFrequency {| Duration := 20 * time_Second |});;
  assign_config c (set_HTTPCheckFrequency {| Duration := 20 * time_Second |});;
  assign_config c
    (set_NodeStatusUpdateFrequency {| Duration := 10 * time_Second |});;
  assign_config c (set_NodeStatusReportFrequency {| Duration := time_Minute |});;
  assign_config c (set_SyncFrequency {| Duration := 10 * time_Second |});;
  assign_config c
    (set_EvictionPressureTransitionPeriod {| Duration := 5 * time_Minute |});;
  assign_config c (set_MaxPods (int32 maxPods));;
  assign_config c (set_PodsPerCore (int32 podsPerCore));;
  assign_config c (set_ClusterDNS []);;
  assign_config c (set_ImageGCHighThresholdPercent 90);;
  assign_config c (set_ImageGCLowThresholdPercent 80);;
  assign_config c (set_VolumeStatsAggPeriod {| Duration := time_Minute |});;
  assign_config c (set_CgroupRoot "");;
  assign_config c (set_CPUCFSQuota true);;
  assign_config c (set_EnableControllerAttachDetach false);;
  assign_config c (set_EnableDebuggingHandlers true);;
  assign_config c (set_CgroupsPerQOS false);;
  assign_config c (set_HairpinMode kubeletconfig_HairpinVeth);;
  assign_config c (set_MaxOpenFiles 1024);;
  assign_config c (set_RegistryBurst 10);;
  assign_config c (set_RegistryPullQPS 5);;
  assign_config c (set_ResolverConfig kubetypes_ResolvConfDefault);;
  assign_config c (set_KubeletCgroups "/kubelet");;
  assign_config c (set_SerializeImagePulls true);;
  assign_config c (set_SystemCgroups "");;
  assign_config c (set_ProtectKernelDefaults false);;

  mret (f, c).

End Program.

(** ** The structs the builder leaves behind *)

Section Built.
Context {T : ExternalTypes} {X : ExternalCode}.

(** The flags after lines 114-123: nine fields written, the others as
    [NewKubeletFlags] made them. *)
Definition built_flags (testRootDir nodeName : string) : options_KubeletFlags :=
  {| EnableServer := true;
     RootDirectory := testRootDir;
     HostnameOverride := nodeName;
     MinimumGCAge := {| Duration := 1 * time_Minute |};
     MaxContainerCount := 100;
     MaxPerPodContainerCount := 2;
     RegisterNode := true;
     RegisterSchedulable := true;
     ProviderID := "kubemark://" +:+ nodeName;
     OtherFlags := OtherFlags NewKubeletFlags_defaults |}.

(** The configuration after lines 131-164, over the defaults [c0]. *)
Definition built_config (c0 : kubeletconfig_KubeletConfiguration)
    (podFilePath : string)
    (kubeletPort kubeletReadOnlyPort maxPods podsPerCore : int) :
    kubeletconfig_KubeletConfiguration :=
  {| StaticPodURL := "";
     Address := "0.0.0.0";
     Port := int32 kubeletPort;
     ReadOnlyPort := int32 kubeletReadOnlyPort;
     StaticPodPath := podFilePath;
     FileCheckFrequency := {| Duration := 20 * time_Second |};
     HTTPCheckFrequency := {| Duration := 20 * time_Second |};
     NodeStatusUpdateFrequency := {| Duration := 10 * time_Second |};
     NodeStatusReportFrequency := {| Duration := time_Minute |};
     SyncFrequency := {| Duration := 10 * time_Second |};
     EvictionPressureTransitionPeriod := {| Duration := 5 * time_Minute |};
     MaxPods := int32 maxPods;
     PodsPerCore := int32 podsPerCore;
     ClusterDNS := [];
     ImageGCHighThresholdPercent := 90;
     ImageGCLowThresholdPercent := 80;
     VolumeStatsAggPeriod := {| Duration := time_Minute |};
     CgroupRoot := "";
     CPUCFSQuota := true;
     EnableControllerAttachDetach := false;
     EnableDebuggingHandlers := true;
     CgroupsPerQOS := false;
     HairpinMode := kubeletconfig_HairpinVeth;
     MaxOpenFiles := 1024;
     RegistryBurst := 10;
     RegistryPullQPS := 5;
     ResolverConfig := kubetypes_ResolvConfDefault;
     KubeletCgroups := "/kubelet";
     SerializeImagePulls := true;
     SystemCgroups := "";
     ProtectKernelDefaults := false;
     OtherConfiguration := OtherConfiguration c0 |}.

(** The dependencies [NewHollowKubelet] allocates. *)
Definition built_deps
    (client heartbeatClient cadvisorInterface dockerClientConfig
     containerManager : ptr) : kubelet_Dependencies :=
  {| KubeClient := client;
     HeartbeatClient := heartbeatClient;
     DockerClientConfig := dockerClientConfig;
     CAdvisorInterface := cadvisorInterface;
     Cloud := None;
     OSInterface := FakeOS;
     ContainerManager := containerManager;
     VolumePlugins :=
       (emptydir_ProbeVolumePlugins ++ secret_ProbeVolumePlugins)
       ++ projected_ProbeVolumePlugins;
     TLSOptions := None;
     OOMAdjuster := NewFakeOOMAdjuster;
     Mounter := mount_New "";
     Subpather := FakeSubpath;
     HostUtil := NewFakeHostUtil [] |}.

(** The state in which [RunKubelet] leaves a state [s]. *)
Definition after_RunKubelet (srv : options_KubeletServer) (d : ptr)
    (once : bool) (s : State) : State :=
  let r := RunKubelet_impl srv d once (depsCells s, world s) in
  set_world (r.2.2) (set_depsCells (r.2.1) (log (RunKubelet_call srv d once) s)).

(** The two directories a run of the builder is handed on a host [w]: the
    root directory and, made inside it, the directory of static pods. *)
Definition temp_dirs (w : World) : option (string * string) :=
  '(root, w1) ← MakeTempDirOrDie_impl "hollow-kubelet." "" w;
  '(pods, _) ← MakeTempDirOrDie_impl "static-pods" root w1;
  Some (root, pods).

(** A 32-bit field [y] written from the [int] [x]. *)
Definition narrowed (x y : Z) : Prop :=
  y = int32 x /\ in_int32 y /\ (y mod 2 ^ 32 = x mod 2 ^ 32)%Z /\
  (in_int32 x -> y = x) /\ (~ in_int32 x -> y <> x).

End Built.

(** ** A small host to run the code on *)

(** Temporary directories are numbered; a host whose temporary root cannot
    be written is [None]. *)
Definition demo_types : ExternalTypes :=
  {| World := option nat;
     VolumePlugin := string;
     OtherKubeletFlags := unit;
     OtherKubeletConfiguration := unit |}.

Definition demo_MakeTempDir (prefix baseDir : string) (w : option nat) :
    option (string * option nat) :=
  n ← w;
  Some ((if decide (baseDir = "") then "/tmp" else baseDir)
          +:+ "/" +:+ prefix +:+ pretty n,
        Some (S n)).

Definition zero_flags : @options_KubeletFlags demo_types :=
  {| EnableServer := false; RootDirectory := ""; HostnameOverride := "";
     MinimumGCAge := {| Duration := 0 |}; MaxContainerCount := 0;
     MaxPerPodContainerCount := 0; RegisterNode := false;
     RegisterSchedulable := false; ProviderID := ""; OtherFlags := (tt : @OtherKubeletFlags demo_types) |}.

Definition zero_config : @kubeletconfig_KubeletConfiguration demo_types :=
  {| StaticPodURL := ""; Address := ""; Port := 0; ReadOnlyPort := 0;
     StaticPodPath := ""; FileCheckFrequency := {| Duration := 0 |};
     HTTPCheckFrequency := {| Duration := 0 |};
     NodeStatusUpdateFrequency := {| Duration := 0 |};
     NodeStatusReportFrequency := {| Duration := 0 |};
     SyncFrequency := {| Duration := 0 |};
     EvictionPressureTransitionPeriod := {| Duration := 0 |};
     MaxPods := 0; PodsPerCore := 0; ClusterDNS := ["10.0.0.10"];
     ImageGCHighThresholdPercent := 0; ImageGCLowThresholdPercent := 0;
     VolumeStatsAggPeriod := {| Duration := 0 |}; CgroupRoot := "/";
     CPUCFSQuota := false; EnableControllerAttachDetach := true;
     EnableDebuggingHandlers := false; CgroupsPerQOS := true;
     HairpinMode := ""; MaxOpenFiles := 0; RegistryBurst := 0;
     RegistryPullQPS := 0; ResolverConfig := ""; KubeletCgroups := "";
     SerializeImagePulls := false; SystemCgroups := "";
     ProtectKernelDefaults := true; OtherConfiguration := (tt : @OtherKubeletConfiguration demo_types) |}.

(** [defaults] is what [NewKubeletConfiguration] yields and [run] how
    [RunKubelet] ends. *)
Definition demo_code_ending
    (defaults : @kubeletconfig_KubeletConfiguration demo_types + error)
    (run : CallEnd (option error)) : @ExternalCode demo_types :=
  @Build_ExternalCode demo_types
    demo_MakeTempDir                    (* MakeTempDirOrDie *)
    zero_flags                          (* NewKubeletFlags *)
    defaults                            (* NewKubeletConfiguration *)
    ["kubernetes.io/empty-dir"]         (* emptydir.ProbeVolumePlugins *)
    ["kubernetes.io/secret"]            (* secret.ProbeVolumePlugins *)
    ["kubernetes.io/projected"]         (* projected.ProbeVolumePlugins *)
    "hairpin-veth"                      (* kubeletconfig.HairpinVeth *)
    "/etc/resolv.conf"                  (* kubetypes.ResolvConfDefault *)
    (fun _ _ _ st => (run, st)).        (* RunKubelet *)

(** The same with a runtime that comes back, with the error [run] or nil. *)
Definition demo_code
    (defaults : @kubeletconfig_KubeletConfiguration demo_types + error)
    (run : option error) : @ExternalCode demo_types :=
  demo_code_ending defaults (CameBack run).

Definition demo_start (w : option nat) : @State demo_types :=
  @Build_State demo_types [] [] [] [] w [].

(** A state holding one flags struct, one configuration and a hollow
    kubelet pointing to them. *)
Definition demo_built : @State demo_types :=
  @Build_State demo_types [zero_flags] [zero_config] []
    [{| KubeletFlags := Some 0; KubeletConfiguration := Some 0;
        KubeletDeps := None |}]
    (Some 0) [].

(** * Properties *)

Arguments int32 : simpl never.
Arguments time_Second : simpl never.
Arguments time_Minute : simpl never.
Arguments Z.mul : simpl never.
Arguments String.append : simpl never.

(** Unfolds the monad and the primitives, leaving the calls to code of
    other packages in sight. *)
Ltac unfold_M :=
  unfold utils_MakeTempDirOrDie, options_NewKubeletFlags,
    options_NewKubeletConfiguration, kubeletapp_RunKubelet, klog_Infof,
    klog_Fatalf, panic, select_no_cases, alloc_flags, alloc_config,
    alloc_deps, alloc_hollow, load_flags, load_config, load_hollow, deref,
    assign_flags, assign_config, mbind, M_bind, mret, M_ret in *.

Ltac unfold_setters :=
  unfold log, set_flagsCells, set_configCells, set_depsCells, set_hollowCells,
    set_world, set_trace in *.

Section Stores.
Context {A : Type}.

Lemma lookup_last_cell (l : list A) (v : A) : (l ++ [v]) !! length l = Some v.
Proof. rewrite lookup_app_r by lia. by rewrite Nat.sub_diag. Qed.

Lemma insert_last_cell (l : list A) (v x : A) :
  <[length l := x]> (l ++ [v]) = l ++ [x].
Proof. rewrite insert_app_r_alt by lia. by rewrite Nat.sub_diag. Qed.

End Stores.

(** Runs a straight line of allocations and assignments to fresh cells. *)
Ltac run_cells := repeat (rewrite ?insert_last_cell, ?lookup_last_cell; cbn).

Section Builder.
Context {T : ExternalTypes} {X : ExternalCode}.
Implicit Types (nodeName : string) (s : State).

(** *** The four ways [GetHollowKubeletConfig] can end *)

Lemma GetHollowKubeletConfig_no_root nodeName kp krp mp ppc s :
  MakeTempDirOrDie_impl "hollow-kubelet." "" (world s) = None ->
  GetHollowKubeletConfig nodeName kp krp mp ppc s =
    Exited (log (MakeTempDirOrDie_call "hollow-kubelet." "") s).
Proof.
  intros H1. unfold GetHollowKubeletConfig. unfold_M. by rewrite H1.
Qed.

Lemma GetHollowKubeletConfig_no_pods nodeName kp krp mp ppc s root w1 :
  MakeTempDirOrDie_impl "hollow-kubelet." "" (world s) = Some (root, w1) ->
  MakeTempDirOrDie_impl "static-pods" root w1 = None ->
  GetHollowKubeletConfig nodeName kp krp mp ppc s =
    Exited (log (MakeTempDirOrDie_call "static-pods" root)
              (set_world w1 (log (MakeTempDirOrDie_call "hollow-kubelet." "") s))).
Proof.
  intros H1 H2. unfold GetHollowKubeletConfig. unfold_M.
  rewrite H1. cbn. by rewrite H2.
Qed.

Lemma GetHollowKubeletConfig_panicked nodeName kp krp mp ppc s
    root w1 pods w2 e :
  MakeTempDirOrDie_impl "hollow-kubelet." "" (world s) = Some (root, w1) ->
  MakeTempDirOrDie_impl "static-pods" root w1 = Some (pods, w2) ->
  NewKubeletConfiguration_defaults = inr e ->
  GetHollowKubeletConfig nodeName kp krp mp ppc s =
    Panicked e
      {| flagsCells := flagsCells s ++ [built_flags root nodeName];
         configCells := configCells s;
         depsCells := depsCells s;
         hollowCells := hollowCells s;
         world := w2;
         trace := trace s ++
           [MakeTempDirOrDie_call "hollow-kubelet." "";
            MakeTempDirOrDie_call "static-pods" root;
            Infof_call
              ("Using " +:+ root +:+ " as root dir for hollow-kubelet")] |}.
Proof.
  intros H1 H2 H3. destruct s as [fc cc dc hc w tr]. cbn in H1.
  unfold GetHollowKubeletConfig. unfold_M. unfold_setters.
  cbn. rewrite H1. cbn. rewrite H2. cbn. run_cells. rewrite H3. cbn.
  rewrite <- !app_assoc. reflexivity.
Qed.

Lemma GetHollowKubeletConfig_returned nodeName kp krp mp ppc s
    root w1 pods w2 c0 :
  MakeTempDirOrDie_impl "hollow-kubelet." "" (world s) = Some (root, w1) ->
  MakeTempDirOrDie_impl "static-pods" root w1 = Some (pods, w2) ->
  NewKubeletConfiguration_defaults = inl c0 ->
  GetHollowKubeletConfig nodeName kp krp mp ppc s =
    Returned (Some (length (flagsCells s)), Some (length (configCells s)))
      {| flagsCells := flagsCells s ++ [built_flags root nodeName];
         configCells :=
           configCells s ++ [built_config c0 pods kp krp mp ppc];
         depsCells := depsCells s;
         hollowCells := hollowCells s;
         world := w2;
         trace := trace s ++
           [MakeTempDirOrDie_call "hollow-kubelet." "";
            MakeTempDirOrDie_call "static-pods" root;
            Infof_call
              ("Using " +:+ root +:+ " as root dir for hollow-kubelet")] |}.
Proof.
  intros H1 H2 H3. destruct s as [fc cc dc hc w tr]. cbn in H1.
  unfold GetHollowKubeletConfig. unfold_M. unfold_setters.
  cbn. rewrite H1. cbn. rewrite H2. cbn. run_cells. rewrite H3. cbn.
  run_cells. rewrite <- !app_assoc. reflexivity.
Qed.

(** Whoever gets a result from the builder got it on the last of the four
    paths. *)
Lemma GetHollowKubeletConfig_inv nodeName kp krp mp ppc s f c s' :
  GetHollowKubeletConfig nodeName kp krp mp ppc s = Returned (f, c) s' ->
  exists root w1 pods w2 c0,
    MakeTempDirOrDie_impl "hollow-kubelet." "" (world s) = Some (root, w1) /\
    MakeTempDirOrDie_impl "static-pods" root w1 = Some (pods, w2) /\
    NewKubeletConfiguration_defaults = inl c0 /\
    flags_at s' f = Some (built_flags root nodeName) /\
    config_at s' c = Some (built_config c0 pods kp krp mp ppc).
Proof.
  intros Hrun.
  destruct (MakeTempDirOrDie_impl "hollow-kubelet." "" (world s))
    as [[root w1]|] eqn:H1;
    [|by rewrite GetHollowKubeletConfig_no_root in Hrun].
  destruct (MakeTempDirOrDie_impl "static-pods" root w1)
    as [[pods w2]|] eqn:H2;
    [|by erewrite GetHollowKubeletConfig_no_pods in Hrun].
  destruct NewKubeletConfiguration_defaults as [c0|e] eqn:H3;
    [|by erewrite GetHollowKubeletConfig_panicked in Hrun].
  erewrite GetHollowKubeletConfig_returned in Hrun by eassumption.
  inversion Hrun; subst. exists root, w1, pods, w2, c0.
  repeat split; try done; cbn; apply lookup_last_cell.
Qed.

(** Whether the builder returns does not depend on the numbers it is
    given. *)
Lemma GetHollowKubeletConfig_returns_whatever_the_numbers
    nodeName kp krp mp ppc kp' krp' mp' ppc' s :
  returns (GetHollowKubeletConfig nodeName kp krp mp ppc s) =
  returns (GetHollowKubeletConfig nodeName kp' krp' mp' ppc' s).
Proof.
  destruct (MakeTempDirOrDie_impl "hollow-kubelet." "" (world s))
    as [[root w1]|] eqn:H1;
    [|by rewrite !GetHollowKubeletConfig_no_root].
  destruct (MakeTempDirOrDie_impl "static-pods" root w1)
    as [[pods w2]|] eqn:H2;
    [|by erewrite !GetHollowKubeletConfig_no_pods].
  destruct NewKubeletConfiguration_defaults as [c0|e] eqn:H3.
  - by erewrite !GetHollowKubeletConfig_returned.
  - by erewrite !GetHollowKubeletConfig_panicked.
Qed.

End Builder.

(** *** The conversion to [int32] *)

Lemma int32_in_range (x : Z) : in_int32 (int32 x).
Proof.
  unfold in_int32, int32.
  pose proof (Z.mod_pos_bound (x + 2 ^ 31) (2 ^ 32) ltac:(lia)). lia.
Qed.

Lemma int32_congruent (x : Z) : (int32 x mod 2 ^ 32 = x mod 2 ^ 32)%Z.
Proof.
  unfold int32. rewrite Zminus_mod_idemp_l. f_equal. lia.
Qed.

Lemma int32_exact (x : Z) : in_int32 x -> int32 x = x.
Proof.
  unfold in_int32, int32. intros Hx. rewrite Z.mod_small; lia.
Qed.

Lemma int32_narrowed (x : Z) : narrowed x (int32 x).
Proof.
  unfold narrowed. pose proof (int32_in_range x) as Hr.
  repeat split; try apply Hr.
  - apply int32_congruent.
  - apply int32_exact.
  - intros Hout Heq. apply Hout. by rewrite <- Heq.
Qed.

(** ** What the builder returns *)

Section BuilderClaims.
Context {T : ExternalTypes} {X : ExternalCode}.
Implicit Types (nodeName : string) (s : State).

(** C5, as amended.  The structs [GetHollowKubeletConfig] returns hold its
    arguments: the hostname override is [nodeName], the provider identifier
    is "kubemark://" followed by [nodeName], and [Port], [ReadOnlyPort],
    [MaxPods] and [PodsPerCore] are [kubeletPort], [kubeletReadOnlyPort],
    [maxPods] and [podsPerCore] converted to [int32], hence equal to them
    whenever they fit in 32 signed bits. *)
Theorem GetHollowKubeletConfig_plumbing
    nodeName kubeletPort kubeletReadOnlyPort maxPods podsPerCore s f c s' :
  GetHollowKubeletConfig nodeName kubeletPort kubeletReadOnlyPort maxPods
    podsPerCore s = Returned (f, c) s' ->
  exists fv cv,
    flags_at s' f = Some fv /\ config_at s' c = Some cv /\
    HostnameOverride fv = nodeName /\
    ProviderID fv = "kubemark://" +:+ nodeName /\
    Port cv = int32 kubeletPort /\
    ReadOnlyPort cv = int32 kubeletReadOnlyPort /\
    MaxPods cv = int32 maxPods /\
    PodsPerCore cv = int32 podsPerCore /\
    (in_int32 kubeletPort -> Port cv = kubeletPort) /\
    (in_int32 kubeletReadOnlyPort -> ReadOnlyPort cv = kubeletReadOnlyPort) /\
    (in_int32 maxPods -> MaxPods cv = maxPods) /\
    (in_int32 podsPerCore -> PodsPerCore cv = podsPerCore).
Proof.
  intros Hrun.
  destruct (GetHollowKubeletConfig_inv _ _ _ _ _ _ _ _ _ Hrun)
    as (root & w1 & pods & w2 & c0 & _ & _ & _ & Hf & Hc).
  eexists _, _. split; [exact Hf|]. split; [exact Hc|]. cbn.
  repeat split; auto using int32_exact.
Qed.

(** C9.  Every configuration the builder returns has the image collection
    thresholds 80 and 90, the low one below the high one, and the same fixed
    values whatever the arguments: bind address "0.0.0.0", no cluster DNS,
    no static pod URL, file and HTTP checks every 20 seconds, node status
    updates every 10 seconds, registry pulls at 5 per second with bursts of
    10. *)
Theorem GetHollowKubeletConfig_constants
    nodeName kubeletPort kubeletReadOnlyPort maxPods podsPerCore s f c s' :
  GetHollowKubeletConfig nodeName kubeletPort kubeletReadOnlyPort maxPods
    podsPerCore s = Returned (f, c) s' ->
  exists cv,
    config_at s' c = Some cv /\
    ImageGCLowThresholdPercent cv = 80%Z /\
    ImageGCHighThresholdPercent cv = 90%Z /\
    (ImageGCLowThresholdPercent cv < ImageGCHighThresholdPercent cv)%Z /\
    Address cv = "0.0.0.0" /\
    ClusterDNS cv = [] /\
    StaticPodURL cv = "" /\
    Duration (FileCheckFrequency cv) = (20 * time_Second)%Z /\
    Duration (HTTPCheckFrequency cv) = (20 * time_Second)%Z /\
    Duration (NodeStatusUpdateFrequency cv) = (10 * time_Second)%Z /\
    RegistryPullQPS cv = 5%Z /\
    RegistryBurst cv = 10%Z.
Proof.
  intros Hrun.
  destruct (GetHollowKubeletConfig_inv _ _ _ _ _ _ _ _ _ Hrun)
    as (root & w1 & pods & w2 & c0 & _ & _ & _ & _ & Hc).
  eexists. split; [exact Hc|]. cbn. repeat split; lia.
Qed.

(** C10.  The builder checks no range: whether it returns does not depend
    on the four numbers, and each is stored converted to [int32].  The
    stored field is congruent to the input modulo 2^32 and lies in the
    signed 32-bit range; it is the input itself when the input lies in that
    range and differs from it otherwise. *)
Theorem GetHollowKubeletConfig_narrows
    nodeName kubeletPort kubeletReadOnlyPort maxPods podsPerCore s :
  (forall kubeletPort' kubeletReadOnlyPort' maxPods' podsPerCore',
     returns (GetHollowKubeletConfig nodeName kubeletPort kubeletReadOnlyPort
                maxPods podsPerCore s) =
     returns (GetHollowKubeletConfig nodeName kubeletPort'
                kubeletReadOnlyPort' maxPods' podsPerCore' s)) /\
  (forall f c s',
     GetHollowKubeletConfig nodeName kubeletPort kubeletReadOnlyPort maxPods
       podsPerCore s = Returned (f, c) s' ->
     exists cv,
       config_at s' c = Some cv /\
       narrowed kubeletPort (Port cv) /\
       narrowed kubeletReadOnlyPort (ReadOnlyPort cv) /\
       narrowed maxPods (MaxPods cv) /\
       narrowed podsPerCore (PodsPerCore cv)).
Proof.
  split.
  - intros. apply GetHollowKubeletConfig_returns_whatever_the_numbers.
  - intros f c s' Hrun.
    destruct (GetHollowKubeletConfig_inv _ _ _ _ _ _ _ _ _ Hrun)
      as (root & w1 & pods & w2 & c0 & _ & _ & _ & _ & Hc).
    eexists. split; [exact Hc|]. cbn.
    repeat split; apply int32_narrowed.
Qed.

(** C2, as amended.  Two runs of the builder on the same five arguments
    return structs that agree in every field but two: the root directory of
    the flags and the static pod path of the configuration, which are the
    temporary directories the host made for that run.  On hosts in the same
    state the structs are equal. *)
Theorem GetHollowKubeletConfig_two_runs
    nodeName kubeletPort kubeletReadOnlyPort maxPods podsPerCore
    s1 f1 c1 s1' s2 f2 c2 s2' :
  GetHollowKubeletConfig nodeName kubeletPort kubeletReadOnlyPort maxPods
    podsPerCore s1 = Returned (f1, c1) s1' ->
  GetHollowKubeletConfig nodeName kubeletPort kubeletReadOnlyPort maxPods
    podsPerCore s2 = Returned (f2, c2) s2' ->
  exists fv1 cv1 fv2 cv2,
    flags_at s1' f1 = Some fv1 /\ config_at s1' c1 = Some cv1 /\
    flags_at s2' f2 = Some fv2 /\ config_at s2' c2 = Some cv2 /\
    fv2 = set_RootDirectory (RootDirectory fv2) fv1 /\
    cv2 = set_StaticPodPath (StaticPodPath cv2) cv1 /\
    temp_dirs (world s1) = Some (RootDirectory fv1, StaticPodPath cv1) /\
    temp_dirs (world s2) = Some (RootDirectory fv2, StaticPodPath cv2) /\
    (world s1 = world s2 -> fv1 = fv2 /\ cv1 = cv2).
Proof.
  intros Hrun1 Hrun2.
  destruct (GetHollowKubeletConfig_inv _ _ _ _ _ _ _ _ _ Hrun1)
    as (root1 & w1 & pods1 & w1' & c0 & Hr1 & Hp1 & Hd1 & Hf1 & Hc1).
  destruct (GetHollowKubeletConfig_inv _ _ _ _ _ _ _ _ _ Hrun2)
    as (root2 & w2 & pods2 & w2' & c0' & Hr2 & Hp2 & Hd2 & Hf2 & Hc2).
  assert (c0' = c0) as -> by congruence.
  eexists _, _, _, _.
  split; [exact Hf1|]. split; [exact Hc1|].
  split; [exact Hf2|]. split; [exact Hc2|].
  split; [reflexivity|]. split; [reflexivity|]. cbn.
  split; [|split].
  - unfold temp_dirs. rewrite Hr1. cbn. rewrite Hp1. reflexivity.
  - unfold temp_dirs. rewrite Hr2. cbn. rewrite Hp2. reflexivity.
  - intros Hw. rewrite Hw in Hr1.
    assert (root1 = root2 /\ w1 = w2) as [-> ->] by (split; congruence).
    assert (pods1 = pods2) as -> by congruence.
    split; reflexivity.
Qed.

End BuilderClaims.

(** ** The constructor and the run *)

Section Hollow.
Context {T : ExternalTypes} {X : ExternalCode}.
Implicit Types (s : State) (hk : ptr) (h : HollowKubelet).

(** [NewHollowKubelet] always returns: it allocates the dependencies and
    the hollow kubelet and touches nothing else. *)
Lemma NewHollowKubelet_returned
    (flags config client heartbeatClient cadvisorInterface
     dockerClientConfig containerManager : ptr) s :
  NewHollowKubelet flags config client heartbeatClient cadvisorInterface
    dockerClientConfig containerManager s =
  Returned (Some (length (hollowCells s)))
    {| flagsCells := flagsCells s;
       configCells := configCells s;
       depsCells :=
         depsCells s ++
         [built_deps client heartbeatClient cadvisorInterface
            dockerClientConfig containerManager];
       hollowCells :=
         hollowCells s ++
         [{| KubeletFlags := flags;
             KubeletConfiguration := config;
             KubeletDeps := Some (length (depsCells s)) |}];
       world := world s;
       trace := trace s |}.
Proof. reflexivity. Qed.

(** [Run] on a hollow kubelet whose three structs are there: one call, then
    the process exits or the goroutine is parked as the call's error
    decides; a call that does not come back ends [Run] the way it ended. *)
Lemma Run_outcome hk s h fv cv :
  hollow_at s hk = Some h ->
  flags_at s (KubeletFlags h) = Some fv ->
  config_at s (KubeletConfiguration h) = Some cv ->
  let srv :=
    {| Server_KubeletFlags := fv; Server_KubeletConfiguration := cv |} in
  let s1 := after_RunKubelet srv (KubeletDeps h) false s in
  Run hk s =
    match (RunKubelet_impl srv (KubeletDeps h) false (depsCells s, world s)).1
    with
    | CameBack (Some e) =>
        Exited
          (log (Fatalf_call
                  ("Failed to run HollowKubelet: " +:+ e +:+ ". Exiting."))
               s1)
    | CameBack None => Blocked s1
    | PanickedInside e => Panicked e s1
    | ExitedInside => Exited s1
    | BlockedInside => Blocked s1
    end.
Proof.
  unfold hollow_at, flags_at, config_at. intros Hh Hf Hc. cbn zeta.
  unfold Run, after_RunKubelet. unfold_M.
  rewrite Hh, Hf, Hc.
  destruct (RunKubelet_impl _ _ _ _) as [[[e|]|e| |] [deps w]]; reflexivity.
Qed.

(** [Run] on a hollow kubelet that is not there, or whose flags or
    configuration are not: the dereference panics, nothing else happened. *)
Lemma Run_missing hk s :
  hollow_at s hk = None \/
  (exists h, hollow_at s hk = Some h /\
     (flags_at s (KubeletFlags h) = None \/
      config_at s (KubeletConfiguration h) = None)) ->
  Run hk s = Panicked nil_dereference s.
Proof.
  unfold hollow_at, flags_at, config_at.
  intros [Hh|(h & Hh & [Hf|Hc])]; unfold Run; unfold_M.
  - by rewrite Hh.
  - by rewrite Hh, Hf.
  - rewrite Hh. destruct (option_bind _ _ _ (KubeletFlags h)); [|done].
    by rewrite Hc.
Qed.

(** However [Run] ends, it is not by returning. *)
Lemma Run_does_not_return hk s : returns (Run hk s) = false.
Proof.
  unfold Run. unfold_M.
  destruct (option_bind _ _ _ hk) as [h|]; [|done].
  destruct (option_bind _ _ _ (KubeletFlags h)) as [fv|]; [|done].
  destruct (option_bind _ _ _ (KubeletConfiguration h)) as [cv|]; [|done].
  by destruct (RunKubelet_impl _ _ _ _) as [[[e|]|e| |] [deps w]].
Qed.

(** However [Run] ends, the flags and the configurations are as they
    were. *)
Lemma Run_keeps_flags_and_config hk s :
  flagsCells (final_state (Run hk s)) = flagsCells s /\
  configCells (final_state (Run hk s)) = configCells s.
Proof.
  unfold Run. unfold_M.
  destruct (option_bind _ _ _ hk) as [h|]; [|done].
  destruct (option_bind _ _ _ (KubeletFlags h)) as [fv|]; [|done].
  destruct (option_bind _ _ _ (KubeletConfiguration h)) as [cv|]; [|done].
  by destruct (RunKubelet_impl _ _ _ _) as [[[e|]|e| |] [deps w]].
Qed.

End Hollow.

Section HollowClaims.
Context {T : ExternalTypes} {X : ExternalCode}.
Implicit Types (s : State) (hk : ptr) (h : HollowKubelet).

(** C6.  Whatever clients, cadvisor interface, docker client configuration
    and container manager it is given, [NewHollowKubelet] returns a hollow
    kubelet whose dependencies hold the fake OS interface, the fake OOM
    adjuster, the fake subpath handler and the fake host utilities. *)
Theorem NewHollowKubelet_injects_fakes
    (flags config client heartbeatClient cadvisorInterface
     dockerClientConfig containerManager : ptr) s :
  exists hk s' h d,
    NewHollowKubelet flags config client heartbeatClient cadvisorInterface
      dockerClientConfig containerManager s = Returned hk s' /\
    hollow_at s' hk = Some h /\
    deps_at s' (KubeletDeps h) = Some d /\
    OSInterface d = FakeOS /\
    OOMAdjuster d = NewFakeOOMAdjuster /\
    Subpather d = FakeSubpath /\
    HostUtil d = NewFakeHostUtil [] /\
    is_fake_os (OSInterface d) = true /\
    is_fake_oom (OOMAdjuster d) = true /\
    is_fake_subpath (Subpather d) = true /\
    is_fake_hostutil (HostUtil d) = true.
Proof.
  rewrite NewHollowKubelet_returned. eexists _, _, _, _.
  split; [reflexivity|]. cbn.
  split; [apply lookup_last_cell|]. cbn.
  split; [apply lookup_last_cell|]. cbn. repeat split.
Qed.

(** C8.  The volume plugins of those dependencies are the emptydir plugins,
    then the secret plugins, then the projected plugins; the cloud provider
    and the TLS options are nil. *)
Theorem NewHollowKubelet_volume_plugins
    (flags config client heartbeatClient cadvisorInterface
     dockerClientConfig containerManager : ptr) s :
  exists hk s' h d,
    NewHollowKubelet flags config client heartbeatClient cadvisorInterface
      dockerClientConfig containerManager s = Returned hk s' /\
    hollow_at s' hk = Some h /\
    deps_at s' (KubeletDeps h) = Some d /\
    VolumePlugins d =
      emptydir_ProbeVolumePlugins ++ secret_ProbeVolumePlugins ++
      projected_ProbeVolumePlugins /\
    Cloud d = None /\
    TLSOptions d = None.
Proof.
  rewrite NewHollowKubelet_returned. eexists _, _, _, _.
  split; [reflexivity|]. cbn.
  split; [apply lookup_last_cell|]. cbn.
  split; [apply lookup_last_cell|]. cbn.
  split; [symmetry; apply app_assoc|]. split; reflexivity.
Qed.

(** C7.  [NewHollowKubelet] stores the two pointers it is given and leaves
    what they point to as it was; [Run], however it ends, leaves every flags
    and every configuration struct as it was. *)
Theorem flags_and_config_are_not_mutated :
  (forall (flags config client heartbeatClient cadvisorInterface
           dockerClientConfig containerManager : ptr) s,
     exists hk s' h,
       NewHollowKubelet flags config client heartbeatClient cadvisorInterface
         dockerClientConfig containerManager s = Returned hk s' /\
       hollow_at s' hk = Some h /\
       KubeletFlags h = flags /\
       KubeletConfiguration h = config /\
       (forall p, flags_at s' p = flags_at s p) /\
       (forall p, config_at s' p = config_at s p)) /\
  (forall hk s p,
     flags_at (final_state (Run hk s)) p = flags_at s p /\
     config_at (final_state (Run hk s)) p = config_at s p).
Proof.
  split.
  - intros. rewrite NewHollowKubelet_returned. eexists _, _, _.
    split; [reflexivity|]. cbn.
    split; [apply lookup_last_cell|]. repeat split.
  - intros hk s p. unfold flags_at, config_at.
    destruct (Run_keeps_flags_and_config hk s) as [-> ->]. split; reflexivity.
Qed.

(** C3.  [Run] never returns to its caller.  On a hollow kubelet whose
    structs are there, when [RunKubelet] returns no error, [Run] ends parked
    in the state that call left: the call is the last thing it did. *)
Theorem Run_never_returns hk s :
  (forall u s', Run hk s <> Returned u s') /\
  (forall h fv cv,
     hollow_at s hk = Some h ->
     flags_at s (KubeletFlags h) = Some fv ->
     config_at s (KubeletConfiguration h) = Some cv ->
     let srv :=
       {| Server_KubeletFlags := fv; Server_KubeletConfiguration := cv |} in
     (RunKubelet_impl srv (KubeletDeps h) false (depsCells s, world s)).1
       = CameBack None ->
     Run hk s = Blocked (after_RunKubelet srv (KubeletDeps h) false s) /\
     trace (final_state (Run hk s)) =
       trace s ++ [RunKubelet_call srv (KubeletDeps h) false]).
Proof.
  split.
  - intros u s' Hrun. pose proof (Run_does_not_return hk s) as Hno.
    by rewrite Hrun in Hno.
  - intros h fv cv Hh Hf Hc srv Hnil.
    rewrite (Run_outcome hk s h fv cv Hh Hf Hc). fold srv. rewrite Hnil.
    split; reflexivity.
Qed.

(** C4.  [Run] on the hollow kubelet that [NewHollowKubelet] built calls
    [RunKubelet] once: with the flags and the configuration behind the two
    pointers given to the constructor, copied into one server struct, with
    the pointer to the dependencies the constructor assembled, and with
    run-once false. *)
Theorem Run_calls_RunKubelet_once
    (flags config client heartbeatClient cadvisorInterface
     dockerClientConfig containerManager : ptr) s fv cv :
  flags_at s flags = Some fv ->
  config_at s config = Some cv ->
  exists hk s1 h,
    NewHollowKubelet flags config client heartbeatClient cadvisorInterface
      dockerClientConfig containerManager s = Returned hk s1 /\
    hollow_at s1 hk = Some h /\
    deps_at s1 (KubeletDeps h) =
      Some (built_deps client heartbeatClient cadvisorInterface
              dockerClientConfig containerManager) /\
    RunKubelet_calls (trace (final_state (Run hk s1))) =
      RunKubelet_calls (trace s) ++
      [({| Server_KubeletFlags := fv; Server_KubeletConfiguration := cv |},
        KubeletDeps h, false)] /\
    exists rest,
      trace (final_state (Run hk s1)) =
        trace s ++
        RunKubelet_call
          {| Server_KubeletFlags := fv; Server_KubeletConfiguration := cv |}
          (KubeletDeps h) false :: rest /\
      (rest = [] \/ exists msg, rest = [Fatalf_call msg]).
Proof.
  intros Hf Hc. rewrite NewHollowKubelet_returned.
  eexists _, _, _. split; [reflexivity|].
  split; [apply lookup_last_cell|]. cbn.
  split; [apply lookup_last_cell|].
  erewrite Run_outcome;
    [|apply lookup_last_cell|cbn; exact Hf|cbn; exact Hc].
  destruct (RunKubelet_impl _ _ _ _).1 as [[e|]|e| |]; cbn.
  - split; [rewrite !omap_app; cbn; by rewrite app_nil_r|].
    eexists. rewrite <- app_assoc. split; [reflexivity|]. right. by eexists.
  - split; [by rewrite omap_app|].
    eexists. split; [reflexivity|]. by left.
  - split; [by rewrite omap_app|].
    eexists. split; [reflexivity|]. by left.
  - split; [by rewrite omap_app|].
    eexists. split; [reflexivity|]. by left.
  - split; [by rewrite omap_app|].
    eexists. split; [reflexivity|]. by left.
Qed.

(** C1, as amended.  The code fails in more than two ways, and in no other
    than these.  [GetHollowKubeletConfig] ends the process inside
    [MakeTempDirOrDie] when either temporary directory cannot be made,
    panics with the error of [NewKubeletConfiguration] when the defaults
    cannot be obtained, and returns otherwise.  [NewHollowKubelet] always
    returns.  [Run] panics on the nil dereference, before it calls the
    runtime, when the hollow kubelet, its flags or its configuration is
    missing; otherwise it calls [RunKubelet] once and, when that call does
    not come back, ends the way the call ended; when the call comes back
    with an error it logs fatally and exits, and with nil it is parked.
    Nothing is tried twice and no panic is recovered. *)
Theorem failure_modes
    nodeName kubeletPort kubeletReadOnlyPort maxPods podsPerCore s :
  let build :=
    GetHollowKubeletConfig nodeName kubeletPort kubeletReadOnlyPort maxPods
      podsPerCore s in
  match MakeTempDirOrDie_impl "hollow-kubelet." "" (world s) with
  | None => build = Exited (log (MakeTempDirOrDie_call "hollow-kubelet." "") s)
  | Some (root, w1) =>
      match MakeTempDirOrDie_impl "static-pods" root w1 with
      | None =>
          build =
            Exited
              (log (MakeTempDirOrDie_call "static-pods" root)
                 (set_world w1
                    (log (MakeTempDirOrDie_call "hollow-kubelet." "") s)))
      | Some _ =>
          match NewKubeletConfiguration_defaults with
          | inr e => exists s', build = Panicked e s'
          | inl _ => returns build = true
          end
      end
  end /\
  (forall flags config client heartbeatClient cadvisorInterface
          dockerClientConfig containerManager,
     returns (NewHollowKubelet flags config client heartbeatClient
                cadvisorInterface dockerClientConfig containerManager s)
       = true) /\
  (forall hk,
     match hollow_at s hk with
     | None => Run hk s = Panicked nil_dereference s
     | Some h =>
         match
           flags_at s (KubeletFlags h), config_at s (KubeletConfiguration h)
         with
         | Some fv, Some cv =>
             let srv :=
               {| Server_KubeletFlags := fv;
                  Server_KubeletConfiguration := cv |} in
             let s1 := after_RunKubelet srv (KubeletDeps h) false s in
             match
               (RunKubelet_impl srv (KubeletDeps h) false
                  (depsCells s, world s)).1
             with
             | CameBack (Some e) =>
                 Run hk s =
                   Exited
                     (log (Fatalf_call
                             ("Failed to run HollowKubelet: " +:+ e +:+
                              ". Exiting."))
                        s1)
             | CameBack None => Run hk s = Blocked s1
             | PanickedInside e => Run hk s = Panicked e s1
             | ExitedInside => Run hk s = Exited s1
             | BlockedInside => Run hk s = Blocked s1
             end
         | _, _ => Run hk s = Panicked nil_dereference s
         end
     end).
Proof.
  cbn zeta. split; [|split].
  - destruct (MakeTempDirOrDie_impl "hollow-kubelet." "" (world s))
      as [[root w1]|] eqn:H1;
      [|by apply GetHollowKubeletConfig_no_root].
    destruct (MakeTempDirOrDie_impl "static-pods" root w1)
      as [[pods w2]|] eqn:H2;
      [|by eapply GetHollowKubeletConfig_no_pods].
    destruct NewKubeletConfiguration_defaults as [c0|e] eqn:H3.
    + by erewrite GetHollowKubeletConfig_returned.
    + eexists. by eapply GetHollowKubeletConfig_panicked.
  - intros. by rewrite NewHollowKubelet_returned.
  - intros hk.
    destruct (hollow_at s hk) as [h|] eqn:Hh;
      [|apply Run_missing; by left].
    destruct (flags_at s (KubeletFlags h)) as [fv|] eqn:Hf;
      [|apply Run_missing; right; exists h; split; [done|by left]].
    destruct (config_at s (KubeletConfiguration h)) as [cv|] eqn:Hc;
      [|apply Run_missing; right; exists h; split; [done|by right]].
    rewrite (Run_outcome hk s h fv cv Hh Hf Hc).
    by destruct (RunKubelet_impl _ _ _ _).1 as [[e|]|e| |].
Qed.

End HollowClaims.

(** ** Runs on the small host *)

(** C5: sent the port 2^32 + 10250, the builder stores 10250. *)
Lemma Port_is_not_kubeletPort :
  let o :=
    GetHollowKubeletConfig (X := demo_code (inl zero_config) None)
      "node-1" 4294977546 10255 110 0 (demo_start (Some 0%nat)) in
  o = Returned (Some 0%nat, Some 0%nat) (final_state o) /\
  (Port <$> config_at (final_state o) (Some 0%nat)) = Some 10250%Z /\
  (Port <$> config_at (final_state o) (Some 0%nat)) <> Some 4294977546%Z.
Proof.
  cbn zeta. split; [|split].
  - vm_compute. reflexivity.
  - vm_compute. reflexivity.
  - vm_compute. discriminate.
Qed.

(** C2: the second of two runs on the same arguments gets another root
    directory and another static pod path. *)
Lemma two_runs_differ :
  let X := demo_code (inl zero_config) None in
  let run1 :=
    GetHollowKubeletConfig (X := X) "node-1" 10250 10255 110 0
      (demo_start (Some 0%nat)) in
  let run2 :=
    GetHollowKubeletConfig (X := X) "node-1" 10250 10255 110 0
      (final_state run1) in
  run1 = Returned (Some 0%nat, Some 0%nat) (final_state run1) /\
  run2 = Returned (Some 1%nat, Some 1%nat) (final_state run2) /\
  (RootDirectory <$> flags_at (final_state run1) (Some 0%nat))
    = Some "/tmp/hollow-kubelet.0" /\
  (RootDirectory <$> flags_at (final_state run2) (Some 1%nat))
    = Some "/tmp/hollow-kubelet.2" /\
  flags_at (final_state run1) (Some 0%nat)
    <> flags_at (final_state run2) (Some 1%nat) /\
  config_at (final_state run1) (Some 0%nat)
    <> config_at (final_state run2) (Some 1%nat).
Proof.
  cbn zeta.
  split; [vm_compute; reflexivity|].
  split; [vm_compute; reflexivity|].
  split; [vm_compute; reflexivity|].
  split; [vm_compute; reflexivity|].
  split; vm_compute; discriminate.
Qed.

(** C1: three failures that are neither of the two.  On a host whose
    temporary root cannot be written the builder ends the process, although
    the default configuration can be obtained.  [Run] on a hollow kubelet
    built from nil pointers panics on the dereference without calling the
    runtime.  And when the runtime itself panics, so does [Run]: no error
    came back and no fatal line is logged. *)
Lemma more_failure_modes_than_two :
  let X := demo_code (inl zero_config) None in
  let build :=
    GetHollowKubeletConfig (X := X) "node-1" 10250 10255 110 0
      (demo_start None) in
  let construct_run : M unit :=
    hk ← NewHollowKubelet (X := X) None None None None None None None;
    Run (X := X) hk in
  let X' := demo_code_ending (inl zero_config) (PanickedInside "no client") in
  (@NewKubeletConfiguration_defaults demo_types X = inl zero_config /\
   build = Exited (log (MakeTempDirOrDie_call "hollow-kubelet." "")
                     (demo_start None)) /\
   returns build = false /\
   (forall e s', build <> Panicked e s')) /\
  (exists s',
     construct_run (demo_start (Some 0%nat)) = Panicked nil_dereference s' /\
     RunKubelet_calls (trace s') = []) /\
  (exists s',
     Run (X := X') (Some 0%nat) demo_built = Panicked "no client" s' /\
     trace s' =
       [RunKubelet_call
          {| Server_KubeletFlags := zero_flags;
             Server_KubeletConfiguration := zero_config |} None false]).
Proof.
  cbn zeta. split; [|split].
  - split; [reflexivity|].
    split; [vm_compute; reflexivity|].
    split; [vm_compute; reflexivity|].
    intros e s'. vm_compute. discriminate.
  - eexists. split; [reflexivity|]. reflexivity.
  - eexists. split; [reflexivity|]. reflexivity.
Qed.

(** The builder run once on a host that has made no directory yet. *)
Lemma GetHollowKubeletConfig_plumbing_witness :
  let o :=
    GetHollowKubeletConfig (X := demo_code (inl zero_config) None)
      "node-1" 10250 10255 110 0 (demo_start (Some 0%nat)) in
  o = Returned (Some 0%nat, Some 0%nat) (final_state o) /\
  exists fv cv,
    flags_at (final_state o) (Some 0%nat) = Some fv /\
    config_at (final_state o) (Some 0%nat) = Some cv /\
    HostnameOverride fv = "node-1" /\
    ProviderID fv = "kubemark://" +:+ "node-1" /\
    Port cv = int32 10250 /\
    ReadOnlyPort cv = int32 10255 /\
    MaxPods cv = int32 110 /\
    PodsPerCore cv = int32 0 /\
    (in_int32 10250 -> Port cv = 10250%Z) /\
    (in_int32 10255 -> ReadOnlyPort cv = 10255%Z) /\
    (in_int32 110 -> MaxPods cv = 110%Z) /\
    (in_int32 0 -> PodsPerCore cv = 0%Z).
Proof.
  cbn zeta. split; [vm_compute; reflexivity|].
  apply (GetHollowKubeletConfig_plumbing
           (X := demo_code (inl zero_config) None)
           "node-1" 10250 10255 110 0 (demo_start (Some 0%nat))
           (Some 0%nat) (Some 0%nat)).
  vm_compute. reflexivity.
Defined.

Lemma GetHollowKubeletConfig_constants_witness :
  let o :=
    GetHollowKubeletConfig (X := demo_code (inl zero_config) None)
      "node-1" 10250 10255 110 0 (demo_start (Some 0%nat)) in
  o = Returned (Some 0%nat, Some 0%nat) (final_state o) /\
  exists cv,
    config_at (final_state o) (Some 0%nat) = Some cv /\
    ImageGCLowThresholdPercent cv = 80%Z /\
    ImageGCHighThresholdPercent cv = 90%Z /\
    (ImageGCLowThresholdPercent cv < ImageGCHighThresholdPercent cv)%Z /\
    Address cv = "0.0.0.0" /\
    ClusterDNS cv = [] /\
    StaticPodURL cv = "" /\
    Duration (FileCheckFrequency cv) = (20 * time_Second)%Z /\
    Duration (HTTPCheckFrequency cv) = (20 * time_Second)%Z /\
    Duration (NodeStatusUpdateFrequency cv) = (10 * time_Second)%Z /\
    RegistryPullQPS cv = 5%Z /\
    RegistryBurst cv = 10%Z.
Proof.
  cbn zeta. split; [vm_compute; reflexivity|].
  apply (GetHollowKubeletConfig_constants
           (X := demo_code (inl zero_config) None)
           "node-1" 10250 10255 110 0 (demo_start (Some 0%nat))
           (Some 0%nat) (Some 0%nat)).
  vm_compute. reflexivity.
Defined.

(** The builder sent a port beyond 32 bits. *)
Lemma GetHollowKubeletConfig_narrows_witness :
  let o :=
    GetHollowKubeletConfig (X := demo_code (inl zero_config) None)
      "node-1" 4294977546 10255 110 0 (demo_start (Some 0%nat)) in
  o = Returned (Some 0%nat, Some 0%nat) (final_state o) /\
  exists cv,
    config_at (final_state o) (Some 0%nat) = Some cv /\
    narrowed 4294977546 (Port cv) /\
    narrowed 10255 (ReadOnlyPort cv) /\
    narrowed 110 (MaxPods cv) /\
    narrowed 0 (PodsPerCore cv).
Proof.
  cbn zeta. split; [vm_compute; reflexivity|].
  apply (proj2 (GetHollowKubeletConfig_narrows
                  (X := demo_code (inl zero_config) None)
                  "node-1" 4294977546 10255 110 0 (demo_start (Some 0%nat)))
           (Some 0%nat) (Some 0%nat)).
  vm_compute. reflexivity.
Defined.

(** The builder run twice, the second time where the first left off. *)
Lemma GetHollowKubeletConfig_two_runs_witness :
  let X := demo_code (inl zero_config) None in
  let run1 :=
    GetHollowKubeletConfig (X := X) "node-1" 10250 10255 110 0
      (demo_start (Some 0%nat)) in
  let run2 :=
    GetHollowKubeletConfig (X := X) "node-1" 10250 10255 110 0
      (final_state run1) in
  run1 = Returned (Some 0%nat, Some 0%nat) (final_state run1) /\
  run2 = Returned (Some 1%nat, Some 1%nat) (final_state run2) /\
  exists fv1 cv1 fv2 cv2,
    flags_at (final_state run1) (Some 0%nat) = Some fv1 /\
    config_at (final_state run1) (Some 0%nat) = Some cv1 /\
    flags_at (final_state run2) (Some 1%nat) = Some fv2 /\
    config_at (final_state run2) (Some 1%nat) = Some cv2 /\
    fv2 = set_RootDirectory (RootDirectory fv2) fv1 /\
    cv2 = set_StaticPodPath (StaticPodPath cv2) cv1 /\
    temp_dirs (X := X) (world (demo_start (Some 0%nat)))
      = Some (RootDirectory fv1, StaticPodPath cv1) /\
    temp_dirs (X := X) (world (final_state run1))
      = Some (RootDirectory fv2, StaticPodPath cv2) /\
    (world (demo_start (Some 0%nat)) = world (final_state run1) ->
     fv1 = fv2 /\ cv1 = cv2).
Proof.
  cbn zeta.
  split; [vm_compute; reflexivity|].
  split; [vm_compute; reflexivity|].
  apply (GetHollowKubeletConfig_two_runs
           (X := demo_code (inl zero_config) None)
           "node-1" 10250 10255 110 0).
  - vm_compute. reflexivity.
  - vm_compute. reflexivity.
Defined.

(** [Run] on a hollow kubelet whose runtime starts without error. *)
Lemma Run_never_returns_witness :
  let X := demo_code (inr "no scheme") None in
  let h :=
    {| KubeletFlags := Some 0%nat; KubeletConfiguration := Some 0%nat;
       KubeletDeps := None |} in
  let srv :=
    {| Server_KubeletFlags := zero_flags;
       Server_KubeletConfiguration := zero_config |} in
  hollow_at demo_built (Some 0%nat) = Some h /\
  flags_at demo_built (KubeletFlags h) = Some zero_flags /\
  config_at demo_built (KubeletConfiguration h) = Some zero_config /\
  (RunKubelet_impl (ExternalCode := X) srv (KubeletDeps h) false
     (depsCells demo_built, world demo_built)).1 = CameBack None /\
  Run (X := X) (Some 0%nat) demo_built =
    Blocked (after_RunKubelet (X := X) srv (KubeletDeps h) false demo_built) /\
  trace (final_state (Run (X := X) (Some 0%nat) demo_built)) =
    trace demo_built ++ [RunKubelet_call srv (KubeletDeps h) false].
Proof.
  cbn zeta. repeat (split; [reflexivity|]).
  apply (proj2 (Run_never_returns (X := demo_code (inr "no scheme") None)
                  (Some 0%nat) demo_built));
    reflexivity.
Defined.

(** [Run] right after [NewHollowKubelet], on a runtime that fails. *)
Lemma Run_calls_RunKubelet_once_witness :
  let X := demo_code (inr "no scheme") (Some "boom") in
  let o :=
    NewHollowKubelet (X := X) (Some 0%nat) (Some 0%nat) (Some 7%nat)
      (Some 8%nat) None None None demo_built in
  flags_at demo_built (Some 0%nat) = Some zero_flags /\
  config_at demo_built (Some 0%nat) = Some zero_config /\
  exists hk s1 h,
    o = Returned hk s1 /\
    hollow_at s1 hk = Some h /\
    deps_at s1 (KubeletDeps h) =
      Some (built_deps (X := X) (Some 7%nat) (Some 8%nat) None None None) /\
    RunKubelet_calls (trace (final_state (Run (X := X) hk s1))) =
      RunKubelet_calls (trace demo_built) ++
      [({| Server_KubeletFlags := zero_flags;
           Server_KubeletConfiguration := zero_config |},
        KubeletDeps h, false)] /\
    exists rest,
      trace (final_state (Run (X := X) hk s1)) =
        trace demo_built ++
        RunKubelet_call
          {| Server_KubeletFlags := zero_flags;
             Server_KubeletConfiguration := zero_config |}
          (KubeletDeps h) false :: rest /\
      (rest = [] \/ exists msg, rest = [Fatalf_call msg]).
Proof.
  cbn zeta. repeat (split; [reflexivity|]).
  apply (Run_calls_RunKubelet_once
           (X := demo_code (inr "no scheme") (Some "boom")));
    reflexivity.
Defined.

(** [Run] on a runtime that fails: the fatal line, then the exit. *)
Lemma failure_modes_witness :
  let X := demo_code (inr "no scheme") (Some "boom") in
  let h :=
    {| KubeletFlags := Some 0%nat; KubeletConfiguration := Some 0%nat;
       KubeletDeps := None |} in
  let srv :=
    {| Server_KubeletFlags := zero_flags;
       Server_KubeletConfiguration := zero_config |} in
  hollow_at demo_built (Some 0%nat) = Some h /\
  flags_at demo_built (KubeletFlags h) = Some zero_flags /\
  config_at demo_built (KubeletConfiguration h) = Some zero_config /\
  Run (X := X) (Some 0%nat) demo_built =
    Exited
      (log (Fatalf_call "Failed to run HollowKubelet: boom. Exiting.")
         (after_RunKubelet (X := X) srv (KubeletDeps h) false demo_built)).
Proof.
  cbn zeta. repeat (split; [reflexivity|]).
  exact (proj2 (proj2 (failure_modes
                         (X := demo_code (inr "no scheme") (Some "boom"))
                         "node-1" 10250 10255 110 0 demo_built))
           (Some 0%nat)).
Defined.

(** * More about the three functions *)

(** ** Strings and the conversion, once more *)

Lemma int32_periodic (x k : Z) : int32 (x + k * 2 ^ 32) = int32 x.
Proof.
  unfold int32. f_equal.
  replace (x + k * 2 ^ 32 + 2 ^ 31)%Z with (x + 2 ^ 31 + k * 2 ^ 32)%Z by lia.
  apply Z_mod_plus_full.
Qed.

Lemma prefix_append (p a : string) : String.prefix p (p +:+ a) = true.
Proof.
  induction p as [|ch p IH]; [by destruct a|].
  change (String ch p +:+ a) with (String ch (p +:+ a)). cbn.
  destruct (Ascii.ascii_dec ch ch); [exact IH|done].
Qed.

Lemma substring_all (a : string) : String.substring 0 (String.length a) a = a.
Proof. induction a as [|ch a IH]; cbn; [done|by rewrite IH]. Qed.

Lemma substring_append (p a : string) :
  String.substring (String.length p) (String.length a) (p +:+ a) = a.
Proof.
  induction p as [|ch p IH]; [apply substring_all|].
  change (String ch p +:+ a) with (String ch (p +:+ a)). exact IH.
Qed.

Lemma append_inj_r (p a b : string) : p +:+ a = p +:+ b -> a = b.
Proof.
  induction p as [|ch p IH]; [done|].
  change (String ch p +:+ a = String ch p +:+ b)
    with (String ch (p +:+ a) = String ch (p +:+ b)).
  intros [= Heq]. by apply IH.
Qed.

(** ** The builder: allocation, effects and defaults *)

Section BuilderMore.
Context {T : ExternalTypes} {X : ExternalCode}.
Implicit Types (nodeName : string) (s : State).

(** The result of a returning run, in full. *)
Lemma GetHollowKubeletConfig_inv_state nodeName kp krp mp ppc s f c s' :
  GetHollowKubeletConfig nodeName kp krp mp ppc s = Returned (f, c) s' ->
  exists root w1 pods w2 c0,
    MakeTempDirOrDie_impl "hollow-kubelet." "" (world s) = Some (root, w1) /\
    MakeTempDirOrDie_impl "static-pods" root w1 = Some (pods, w2) /\
    NewKubeletConfiguration_defaults = inl c0 /\
    f = Some (length (flagsCells s)) /\
    c = Some (length (configCells s)) /\
    s' =
      {| flagsCells := flagsCells s ++ [built_flags root nodeName];
         configCells :=
           configCells s ++ [built_config c0 pods kp krp mp ppc];
         depsCells := depsCells s;
         hollowCells := hollowCells s;
         world := w2;
         trace := trace s ++
           [MakeTempDirOrDie_call "hollow-kubelet." "";
            MakeTempDirOrDie_call "static-pods" root;
            Infof_call
              ("Using " +:+ root +:+ " as root dir for hollow-kubelet")] |}.
Proof.
  intros Hrun.
  destruct (MakeTempDirOrDie_impl "hollow-kubelet." "" (world s))
    as [[root w1]|] eqn:H1;
    [|by rewrite GetHollowKubeletConfig_no_root in Hrun].
  destruct (MakeTempDirOrDie_impl "static-pods" root w1)
    as [[pods w2]|] eqn:H2;
    [|by erewrite GetHollowKubeletConfig_no_pods in Hrun].
  destruct NewKubeletConfiguration_defaults as [c0|e] eqn:H3;
    [|by erewrite GetHollowKubeletConfig_panicked in Hrun].
  erewrite GetHollowKubeletConfig_returned in Hrun by eassumption.
  inversion Hrun; subst. by exists root, w1, pods, w2, c0.
Qed.

Lemma lookup_old_cell {A : Type} (l : list A) (v : A) (p : ptr) :
  is_Some (p ≫= (l !!.)) -> p ≫= ((l ++ [v]) !!.) = p ≫= (l !!.).
Proof.
  destruct p as [a|]; cbn; [|by intros [? ?]].
  intros Hsome. apply lookup_app_l. by apply lookup_lt_is_Some.
Qed.

Lemma lookup_fresh_cell {A : Type} (l : list A) :
  Some (length l) ≫= (l !!.) = None.
Proof. cbn. by apply lookup_ge_None. Qed.

(** The two pointers the builder returns point to structs that did not
    exist before the call; every struct that did exist is as it was, and no
    dependencies and no hollow kubelet are made. *)
Theorem GetHollowKubeletConfig_allocates_fresh
    nodeName kubeletPort kubeletReadOnlyPort maxPods podsPerCore s f c s' :
  GetHollowKubeletConfig nodeName kubeletPort kubeletReadOnlyPort maxPods
    podsPerCore s = Returned (f, c) s' ->
  flags_at s f = None /\ config_at s c = None /\
  is_Some (flags_at s' f) /\ is_Some (config_at s' c) /\
  (forall p, is_Some (flags_at s p) -> flags_at s' p = flags_at s p) /\
  (forall p, is_Some (config_at s p) -> config_at s' p = config_at s p) /\
  depsCells s' = depsCells s /\ hollowCells s' = hollowCells s.
Proof.
  intros Hrun.
  destruct (GetHollowKubeletConfig_inv_state _ _ _ _ _ _ _ _ _ Hrun)
    as (root & w1 & pods & w2 & c0 & _ & _ & _ & -> & -> & ->).
  unfold flags_at, config_at. cbn [flagsCells configCells depsCells hollowCells].
  split; [apply lookup_fresh_cell|]. split; [apply lookup_fresh_cell|].
  split; [cbn; rewrite lookup_last_cell; by eexists|].
  split; [cbn; rewrite lookup_last_cell; by eexists|].
  split; [intros p; apply lookup_old_cell|].
  split; [intros p; apply lookup_old_cell|]. split; reflexivity.
Qed.

(** Two runs in a row hand out four different structs: the pointers of the
    second run differ from those of the first, whose structs the second run
    leaves as they were. *)
Theorem GetHollowKubeletConfig_runs_do_not_alias
    nodeName1 kp1 krp1 mp1 ppc1 nodeName2 kp2 krp2 mp2 ppc2
    s f1 c1 s1 f2 c2 s2 :
  GetHollowKubeletConfig nodeName1 kp1 krp1 mp1 ppc1 s = Returned (f1, c1) s1 ->
  GetHollowKubeletConfig nodeName2 kp2 krp2 mp2 ppc2 s1 = Returned (f2, c2) s2 ->
  f1 <> f2 /\ c1 <> c2 /\
  flags_at s2 f1 = flags_at s1 f1 /\ config_at s2 c1 = config_at s1 c1.
Proof.
  intros Hrun1 Hrun2.
  destruct (GetHollowKubeletConfig_inv_state _ _ _ _ _ _ _ _ _ Hrun1)
    as (? & ? & ? & ? & ? & _ & _ & _ & -> & -> & ->).
  destruct (GetHollowKubeletConfig_inv_state _ _ _ _ _ _ _ _ _ Hrun2)
    as (? & ? & ? & ? & ? & _ & _ & _ & -> & -> & ->).
  cbn [flagsCells configCells]. rewrite !length_app. cbn [length].
  split; [intros [= Heq]; lia|]. split; [intros [= Heq]; lia|].
  unfold flags_at, config_at. cbn [flagsCells configCells].
  split; apply lookup_old_cell; cbn; rewrite lookup_last_cell; by eexists.
Qed.

(** What a returning run does to the host and to the log: it makes the root
    directory, makes the static pod directory inside the root directory, and
    writes one line that names the root directory; the two directories are
    the ones the structs hold. *)
Theorem GetHollowKubeletConfig_effects
    nodeName kubeletPort kubeletReadOnlyPort maxPods podsPerCore s f c s' :
  GetHollowKubeletConfig nodeName kubeletPort kubeletReadOnlyPort maxPods
    podsPerCore s = Returned (f, c) s' ->
  exists fv cv w1,
    flags_at s' f = Some fv /\ config_at s' c = Some cv /\
    MakeTempDirOrDie_impl "hollow-kubelet." "" (world s)
      = Some (RootDirectory fv, w1) /\
    MakeTempDirOrDie_impl "static-pods" (RootDirectory fv) w1
      = Some (StaticPodPath cv, world s') /\
    trace s' =
      trace s ++
      [MakeTempDirOrDie_call "hollow-kubelet." "";
       MakeTempDirOrDie_call "static-pods" (RootDirectory fv);
       Infof_call
         ("Using " +:+ RootDirectory fv +:+ " as root dir for hollow-kubelet")].
Proof.
  intros Hrun.
  destruct (GetHollowKubeletConfig_inv_state _ _ _ _ _ _ _ _ _ Hrun)
    as (root & w1 & pods & w2 & c0 & H1 & H2 & _ & -> & -> & ->).
  exists (built_flags root nodeName),
    (built_config c0 pods kubeletPort kubeletReadOnlyPort maxPods podsPerCore),
    w1.
  split; [apply lookup_last_cell|]. split; [apply lookup_last_cell|].
  by repeat split.
Qed.

(** When the default configuration cannot be obtained the panic comes late:
    both directories are made, the line is logged and the flags struct is
    allocated and filled; no configuration struct is allocated. *)
Theorem GetHollowKubeletConfig_panics_after_its_effects
    nodeName kubeletPort kubeletReadOnlyPort maxPods podsPerCore s
    root w1 pods w2 e :
  MakeTempDirOrDie_impl "hollow-kubelet." "" (world s) = Some (root, w1) ->
  MakeTempDirOrDie_impl "static-pods" root w1 = Some (pods, w2) ->
  NewKubeletConfiguration_defaults = inr e ->
  exists s',
    GetHollowKubeletConfig nodeName kubeletPort kubeletReadOnlyPort maxPods
      podsPerCore s = Panicked e s' /\
    world s' = w2 /\
    trace s' =
      trace s ++
      [MakeTempDirOrDie_call "hollow-kubelet." "";
       MakeTempDirOrDie_call "static-pods" root;
       Infof_call ("Using " +:+ root +:+ " as root dir for hollow-kubelet")] /\
    flags_at s' (Some (length (flagsCells s)))
      = Some (built_flags root nodeName) /\
    configCells s' = configCells s.
Proof.
  intros H1 H2 H3. eexists.
  split; [by eapply GetHollowKubeletConfig_panicked|]. cbn.
  repeat split. apply lookup_last_cell.
Qed.

End BuilderMore.

Section BuilderValues.
Context {T : ExternalTypes} {X : ExternalCode}.
Implicit Types (nodeName : string) (s : State).

(** The flags every returning run leaves: the server is enabled, the node
    registers itself and is schedulable, dead containers are kept for at
    least a minute, at most 2 per pod and 100 in all. *)
Theorem GetHollowKubeletConfig_flags
    nodeName kubeletPort kubeletReadOnlyPort maxPods podsPerCore s f c s' :
  GetHollowKubeletConfig nodeName kubeletPort kubeletReadOnlyPort maxPods
    podsPerCore s = Returned (f, c) s' ->
  exists fv,
    flags_at s' f = Some fv /\
    EnableServer fv = true /\
    RegisterNode fv = true /\
    RegisterSchedulable fv = true /\
    Duration (MinimumGCAge fv) = 60000000000%Z /\
    MaxContainerCount fv = 100%Z /\
    MaxPerPodContainerCount fv = 2%Z /\
    (MaxPerPodContainerCount fv <= MaxContainerCount fv)%Z.
Proof.
  intros Hrun.
  destruct (GetHollowKubeletConfig_inv _ _ _ _ _ _ _ _ _ Hrun)
    as (root & w1 & pods & w2 & c0 & _ & _ & _ & Hf & _).
  eexists. split; [exact Hf|]. cbn. repeat split. lia.
Qed.

(** The other settings of every configuration a run returns.  Periods:
    sync every 10 seconds, node status reported every minute (so not more
    often than it is updated), volume statistics every minute, eviction
    pressure held for 5 minutes.  Cgroups: no root, no per-QOS cgroups, the
    kubelet in "/kubelet", no system cgroup, CFS quota on.  The debugging
    handlers are on, attach/detach by the controller is off, image pulls are
    serialized, kernel defaults are not protected, 1024 open files, and the
    hairpin mode and resolver configuration are the two named constants. *)
Theorem GetHollowKubeletConfig_settings
    nodeName kubeletPort kubeletReadOnlyPort maxPods podsPerCore s f c s' :
  GetHollowKubeletConfig nodeName kubeletPort kubeletReadOnlyPort maxPods
    podsPerCore s = Returned (f, c) s' ->
  exists cv,
    config_at s' c = Some cv /\
    Duration (SyncFrequency cv) = 10000000000%Z /\
    Duration (NodeStatusReportFrequency cv) = 60000000000%Z /\
    (Duration (NodeStatusUpdateFrequency cv)
       <= Duration (NodeStatusReportFrequency cv))%Z /\
    Duration (VolumeStatsAggPeriod cv) = 60000000000%Z /\
    Duration (EvictionPressureTransitionPeriod cv) = 300000000000%Z /\
    CgroupRoot cv = "" /\
    CgroupsPerQOS cv = false /\
    KubeletCgroups cv = "/kubelet" /\
    SystemCgroups cv = "" /\
    CPUCFSQuota cv = true /\
    EnableDebuggingHandlers cv = true /\
    EnableControllerAttachDetach cv = false /\
    SerializeImagePulls cv = true /\
    ProtectKernelDefaults cv = false /\
    MaxOpenFiles cv = 1024%Z /\
    HairpinMode cv = kubeletconfig_HairpinVeth /\
    ResolverConfig cv = kubetypes_ResolvConfDefault.
Proof.
  intros Hrun.
  destruct (GetHollowKubeletConfig_inv _ _ _ _ _ _ _ _ _ Hrun)
    as (root & w1 & pods & w2 & c0 & _ & _ & _ & _ & Hc).
  eexists. split; [exact Hc|]. cbn.
  repeat split; unfold time_Minute, time_Second; lia.
Qed.

(** Inputs that differ by multiples of 2^32 cannot be told apart: the
    builder ends in the same way, in the same state, with the same structs. *)
Theorem GetHollowKubeletConfig_periodic
    nodeName kubeletPort kubeletReadOnlyPort maxPods podsPerCore
    (k1 k2 k3 k4 : Z) s :
  GetHollowKubeletConfig nodeName
    (kubeletPort + k1 * 2 ^ 32) (kubeletReadOnlyPort + k2 * 2 ^ 32)
    (maxPods + k3 * 2 ^ 32) (podsPerCore + k4 * 2 ^ 32) s =
  GetHollowKubeletConfig nodeName kubeletPort kubeletReadOnlyPort maxPods
    podsPerCore s.
Proof.
  destruct (MakeTempDirOrDie_impl "hollow-kubelet." "" (world s))
    as [[root w1]|] eqn:H1;
    [|by rewrite !GetHollowKubeletConfig_no_root].
  destruct (MakeTempDirOrDie_impl "static-pods" root w1)
    as [[pods w2]|] eqn:H2;
    [|by erewrite !GetHollowKubeletConfig_no_pods].
  destruct NewKubeletConfiguration_defaults as [c0|e] eqn:H3.
  - erewrite !GetHollowKubeletConfig_returned by eassumption.
    unfold built_config. by rewrite !int32_periodic.
  - by erewrite !GetHollowKubeletConfig_panicked.
Qed.

(** The provider identifier names the node: it starts with "kubemark://",
    what follows is the node name, and two runs that yield the same
    identifier were given the same node name. *)
Theorem ProviderID_names_the_node
    nodeName1 kp1 krp1 mp1 ppc1 s1 f1 c1 s1'
    nodeName2 kp2 krp2 mp2 ppc2 s2 f2 c2 s2' :
  GetHollowKubeletConfig nodeName1 kp1 krp1 mp1 ppc1 s1 = Returned (f1, c1) s1' ->
  GetHollowKubeletConfig nodeName2 kp2 krp2 mp2 ppc2 s2 = Returned (f2, c2) s2' ->
  exists fv1 fv2,
    flags_at s1' f1 = Some fv1 /\ flags_at s2' f2 = Some fv2 /\
    String.prefix "kubemark://" (ProviderID fv1) = true /\
    String.substring 11 (String.length nodeName1) (ProviderID fv1)
      = nodeName1 /\
    (ProviderID fv1 = ProviderID fv2 -> nodeName1 = nodeName2).
Proof.
  intros Hrun1 Hrun2.
  destruct (GetHollowKubeletConfig_inv _ _ _ _ _ _ _ _ _ Hrun1)
    as (root1 & ? & ? & ? & ? & _ & _ & _ & Hf1 & _).
  destruct (GetHollowKubeletConfig_inv _ _ _ _ _ _ _ _ _ Hrun2)
    as (root2 & ? & ? & ? & ? & _ & _ & _ & Hf2 & _).
  eexists _, _. split; [exact Hf1|]. split; [exact Hf2|]. cbn.
  split; [apply prefix_append|].
  split; [exact (substring_append "kubemark://" nodeName1)|].
  apply append_inj_r.
Qed.

End BuilderValues.

(** The defaults of the options package reach the structs only through the
    fields the builder does not assign: those fields are the defaults', and
    two builds that differ in nothing but the defaults return structs that
    differ in nothing but those fields. *)
Theorem GetHollowKubeletConfig_overrides_defaults
    {T : ExternalTypes} (X X' : ExternalCode)
    nodeName kubeletPort kubeletReadOnlyPort maxPods podsPerCore
    (s : State) f c s1 f' c' s1' :
  @MakeTempDirOrDie_impl T X = @MakeTempDirOrDie_impl T X' ->
  @kubeletconfig_HairpinVeth T X = @kubeletconfig_HairpinVeth T X' ->
  @kubetypes_ResolvConfDefault T X = @kubetypes_ResolvConfDefault T X' ->
  GetHollowKubeletConfig (X := X) nodeName kubeletPort kubeletReadOnlyPort
    maxPods podsPerCore s = Returned (f, c) s1 ->
  GetHollowKubeletConfig (X := X') nodeName kubeletPort kubeletReadOnlyPort
    maxPods podsPerCore s = Returned (f', c') s1' ->
  exists fv cv fv' cv' c0 c0',
    flags_at s1 f = Some fv /\ config_at s1 c = Some cv /\
    flags_at s1' f' = Some fv' /\ config_at s1' c' = Some cv' /\
    @NewKubeletConfiguration_defaults T X = inl c0 /\
    @NewKubeletConfiguration_defaults T X' = inl c0' /\
    OtherFlags fv = OtherFlags (@NewKubeletFlags_defaults T X) /\
    OtherConfiguration cv = OtherConfiguration c0 /\
    OtherFlags fv' = OtherFlags (@NewKubeletFlags_defaults T X') /\
    OtherConfiguration cv' = OtherConfiguration c0' /\
    fv' = set_OtherFlags (OtherFlags fv') fv /\
    cv' = set_OtherConfiguration (OtherConfiguration cv') cv.
Proof.
  intros Hmk Hhp Hrc Hrun Hrun'.
  destruct (GetHollowKubeletConfig_inv _ _ _ _ _ _ _ _ _ Hrun)
    as (root & w1 & pods & w2 & c0 & H1 & H2 & H3 & Hf & Hc).
  destruct (GetHollowKubeletConfig_inv _ _ _ _ _ _ _ _ _ Hrun')
    as (root' & w1' & pods' & w2' & c0' & H1' & H2' & H3' & Hf' & Hc').
  rewrite <- Hmk in H1', H2'.
  assert (root' = root /\ w1' = w1) as [-> ->] by (split; congruence).
  assert (pods' = pods) as -> by congruence.
  exists (built_flags (X := X) root nodeName),
    (built_config (X := X) c0 pods kubeletPort kubeletReadOnlyPort maxPods
       podsPerCore),
    (built_flags (X := X') root nodeName),
    (built_config (X := X') c0' pods kubeletPort kubeletReadOnlyPort maxPods
       podsPerCore), c0, c0'.
  repeat (split; [done|]).
  unfold built_config, set_OtherConfiguration. cbn. by rewrite Hhp, Hrc.
Qed.

(** ** The constructor and the run: nil, aliasing, the whole start *)

Section HollowMore.
Context {T : ExternalTypes} {X : ExternalCode}.
Implicit Types (s : State) (hk : ptr) (h : HollowKubelet).

(** [NewHollowKubelet] checks nothing and shares nothing: for all
    arguments, nil pointers included, it returns a pointer to a hollow
    kubelet that did not exist before, whose dependencies did not exist
    before either, and it leaves the dependencies and the hollow kubelets
    made before as they were. *)
Theorem NewHollowKubelet_allocates_fresh
    (flags config client heartbeatClient cadvisorInterface
     dockerClientConfig containerManager : ptr) s :
  exists hk s' h,
    NewHollowKubelet flags config client heartbeatClient cadvisorInterface
      dockerClientConfig containerManager s = Returned hk s' /\
    hollow_at s hk = None /\
    hollow_at s' hk = Some h /\
    deps_at s (KubeletDeps h) = None /\
    is_Some (deps_at s' (KubeletDeps h)) /\
    (forall p, is_Some (deps_at s p) -> deps_at s' p = deps_at s p) /\
    (forall p, is_Some (hollow_at s p) -> hollow_at s' p = hollow_at s p).
Proof.
  rewrite NewHollowKubelet_returned. eexists _, _, _.
  split; [reflexivity|]. unfold hollow_at, deps_at.
  cbn [depsCells hollowCells].
  split; [apply lookup_fresh_cell|].
  split; [cbn; apply lookup_last_cell|]. cbn [KubeletDeps].
  split; [apply lookup_fresh_cell|].
  split; [cbn; rewrite lookup_last_cell; by eexists|].
  split; intros p; apply lookup_old_cell.
Qed.

(** The collaborators handed to [NewHollowKubelet] reach the dependencies
    unchanged, each in the field of its name, and the mounter is not a fake:
    it is [mount.New] with the default path. *)
Theorem NewHollowKubelet_passes_collaborators
    (flags config client heartbeatClient cadvisorInterface
     dockerClientConfig containerManager : ptr) s :
  exists hk s' h d,
    NewHollowKubelet flags config client heartbeatClient cadvisorInterface
      dockerClientConfig containerManager s = Returned hk s' /\
    hollow_at s' hk = Some h /\
    deps_at s' (KubeletDeps h) = Some d /\
    KubeClient d = client /\
    HeartbeatClient d = heartbeatClient /\
    CAdvisorInterface d = cadvisorInterface /\
    DockerClientConfig d = dockerClientConfig /\
    ContainerManager d = containerManager /\
    Mounter d = mount_New "".
Proof.
  rewrite NewHollowKubelet_returned. eexists _, _, _, _.
  split; [reflexivity|]. cbn.
  split; [apply lookup_last_cell|]. cbn.
  split; [apply lookup_last_cell|]. by repeat split.
Qed.

(** [Run] stops short of the runtime exactly when the hollow kubelet, its
    flags or its configuration is missing: it then panics on the nil
    dereference and leaves the state as it was.  When the three are there
    it calls [RunKubelet], whatever the pointer to the dependencies is: that
    pointer is handed on, nil or not, and not read here. *)
Theorem Run_stops_short_iff_a_struct_is_missing hk s :
  let missing :=
    hollow_at s hk = None \/
    exists h, hollow_at s hk = Some h /\
      (flags_at s (KubeletFlags h) = None \/
       config_at s (KubeletConfiguration h) = None) in
  (missing -> Run hk s = Panicked nil_dereference s) /\
  (missing <-> trace (final_state (Run hk s)) = trace s) /\
  (~ missing ->
   exists h fv cv rest,
     hollow_at s hk = Some h /\
     flags_at s (KubeletFlags h) = Some fv /\
     config_at s (KubeletConfiguration h) = Some cv /\
     trace (final_state (Run hk s)) =
       trace s ++
       RunKubelet_call
         {| Server_KubeletFlags := fv; Server_KubeletConfiguration := cv |}
         (KubeletDeps h) false :: rest).
Proof.
  cbn zeta.
  assert (forall h fv cv,
            hollow_at s hk = Some h ->
            flags_at s (KubeletFlags h) = Some fv ->
            config_at s (KubeletConfiguration h) = Some cv ->
            exists rest,
              trace (final_state (Run hk s)) =
                trace s ++
                RunKubelet_call
                  {| Server_KubeletFlags := fv;
                     Server_KubeletConfiguration := cv |}
                  (KubeletDeps h) false :: rest) as Hcall.
  { intros h fv cv Hh Hf Hc. rewrite (Run_outcome hk s h fv cv Hh Hf Hc).
    destruct (RunKubelet_impl _ _ _ _).1 as [[e|]|e| |]; cbn;
      rewrite <- ?app_assoc; by eexists. }
  split; [apply Run_missing|]. split; [split|].
  - intros Hmiss. by rewrite (Run_missing hk s Hmiss).
  - intros Htrace.
    destruct (hollow_at s hk) as [h|] eqn:Hh; [|by left].
    right. exists h. split; [done|].
    destruct (flags_at s (KubeletFlags h)) as [fv|] eqn:Hf; [|by left].
    destruct (config_at s (KubeletConfiguration h)) as [cv|] eqn:Hc;
      [|by right].
    destruct (Hcall h fv cv eq_refl Hf Hc) as [rest Hrest].
    rewrite Hrest in Htrace. apply (f_equal length) in Htrace.
    rewrite length_app in Htrace. cbn in Htrace. lia.
  - intros Hnot.
    destruct (hollow_at s hk) as [h|] eqn:Hh; [|destruct Hnot; by left].
    destruct (flags_at s (KubeletFlags h)) as [fv|] eqn:Hf;
      [|destruct Hnot; right; exists h; split; [done|by left]].
    destruct (config_at s (KubeletConfiguration h)) as [cv|] eqn:Hc;
      [|destruct Hnot; right; exists h; split; [done|by right]].
    destruct (Hcall h fv cv eq_refl Hf Hc) as [rest Hrest].
    by exists h, fv, cv, rest.
Qed.

End HollowMore.

Section Composition.
Context {T : ExternalTypes} {X : ExternalCode}.
Implicit Types (s : State) (hk : ptr) (h : HollowKubelet).

Lemma bind_Returned {A B : Type} (m : M A) (k : A -> M B) s a s' :
  m s = Returned a s' -> (m ≫= k) s = k a s'.
Proof. intros Hm. unfold mbind, M_bind. by rewrite Hm. Qed.

Lemma assign_flags_valid (a : nat) upd s fv :
  flagsCells s !! a = Some fv ->
  assign_flags (Some a) upd s =
    Returned tt (set_flagsCells (<[a := upd fv]> (flagsCells s)) s).
Proof. intros Hf. unfold assign_flags. by rewrite Hf. Qed.

Lemma assign_config_valid (a : nat) upd s cv :
  configCells s !! a = Some cv ->
  assign_config (Some a) upd s =
    Returned tt (set_configCells (<[a := upd cv]> (configCells s)) s).
Proof. intros Hc. unfold assign_config. by rewrite Hc. Qed.

(** [NewHollowKubelet] keeps the pointers, not copies of the structs: what
    [Run] hands to the runtime is what the flags and the configuration hold
    when [Run] is called, whatever was assigned to them after the
    constructor returned. *)
Theorem Run_reads_the_structs_when_called
    (flags config client heartbeatClient cadvisorInterface
     dockerClientConfig containerManager : ptr)
    (change_flags : options_KubeletFlags -> options_KubeletFlags)
    (change_config : kubeletconfig_KubeletConfiguration ->
                     kubeletconfig_KubeletConfiguration)
    s fv cv :
  flags_at s flags = Some fv ->
  config_at s config = Some cv ->
  let program : M unit :=
    hk ← NewHollowKubelet flags config client heartbeatClient
           cadvisorInterface dockerClientConfig containerManager;
    assign_flags flags change_flags;;
    assign_config config change_config;;
    Run hk in
  RunKubelet_calls (trace (final_state (program s))) =
    RunKubelet_calls (trace s) ++
    [({| Server_KubeletFlags := change_flags fv;
         Server_KubeletConfiguration := change_config cv |},
      Some (length (depsCells s)), false)].
Proof.
  destruct flags as [a|]; [|done]. destruct config as [b|]; [|done].
  unfold flags_at, config_at. cbn. intros Hf Hc.
  erewrite bind_Returned by apply NewHollowKubelet_returned.
  erewrite bind_Returned by (apply assign_flags_valid; exact Hf).
  erewrite bind_Returned by (apply assign_config_valid; exact Hc).
  erewrite Run_outcome; cycle 1.
  - apply lookup_last_cell.
  - cbn. apply list_lookup_insert_eq. by eapply lookup_lt_Some.
  - cbn. apply list_lookup_insert_eq. by eapply lookup_lt_Some.
  - destruct (RunKubelet_impl _ _ _ _).1 as [[e|]|e| |]; cbn;
      rewrite ?omap_app; cbn; by rewrite ?app_nil_r.
Qed.


End Composition.

(** ** More runs on the small host *)

(** The builder run in a state that already holds a flags struct and a
    configuration. *)
Lemma GetHollowKubeletConfig_allocates_fresh_witness :
  let o :=
    GetHollowKubeletConfig (X := demo_code (inl zero_config) None)
      "node-1" 10250 10255 110 0 demo_built in
  o = Returned (Some 1%nat, Some 1%nat) (final_state o) /\
  flags_at demo_built (Some 1%nat) = None /\
  config_at demo_built (Some 1%nat) = None /\
  is_Some (flags_at (final_state o) (Some 1%nat)) /\
  is_Some (config_at (final_state o) (Some 1%nat)) /\
  (forall p, is_Some (flags_at demo_built p) ->
             flags_at (final_state o) p = flags_at demo_built p) /\
  (forall p, is_Some (config_at demo_built p) ->
             config_at (final_state o) p = config_at demo_built p) /\
  depsCells (final_state o) = depsCells demo_built /\
  hollowCells (final_state o) = hollowCells demo_built.
Proof.
  cbn zeta. split; [vm_compute; reflexivity|].
  apply (GetHollowKubeletConfig_allocates_fresh
           (X := demo_code (inl zero_config) None)
           "node-1" 10250 10255 110 0 demo_built).
  vm_compute. reflexivity.
Defined.

Lemma GetHollowKubeletConfig_runs_do_not_alias_witness :
  let X := demo_code (inl zero_config) None in
  let run1 :=
    GetHollowKubeletConfig (X := X) "node-1" 10250 10255 110 0
      (demo_start (Some 0%nat)) in
  let run2 :=
    GetHollowKubeletConfig (X := X) "node-2" 10251 10256 50 0
      (final_state run1) in
  run1 = Returned (Some 0%nat, Some 0%nat) (final_state run1) /\
  run2 = Returned (Some 1%nat, Some 1%nat) (final_state run2) /\
  Some 0%nat <> Some 1%nat /\ Some 0%nat <> Some 1%nat /\
  flags_at (final_state run2) (Some 0%nat)
    = flags_at (final_state run1) (Some 0%nat) /\
  config_at (final_state run2) (Some 0%nat)
    = config_at (final_state run1) (Some 0%nat).
Proof.
  cbn zeta.
  split; [vm_compute; reflexivity|].
  split; [vm_compute; reflexivity|].
  apply (GetHollowKubeletConfig_runs_do_not_alias
           (X := demo_code (inl zero_config) None)
           "node-1" 10250 10255 110 0 "node-2" 10251 10256 50 0
           (demo_start (Some 0%nat))).
  - vm_compute. reflexivity.
  - vm_compute. reflexivity.
Defined.

Lemma GetHollowKubeletConfig_effects_witness :
  let X := demo_code (inl zero_config) None in
  let o :=
    GetHollowKubeletConfig (X := X) "node-1" 10250 10255 110 0
      (demo_start (Some 0%nat)) in
  o = Returned (Some 0%nat, Some 0%nat) (final_state o) /\
  exists fv cv w1,
    flags_at (final_state o) (Some 0%nat) = Some fv /\
    config_at (final_state o) (Some 0%nat) = Some cv /\
    MakeTempDirOrDie_impl (ExternalCode := X) "hollow-kubelet." ""
      (world (demo_start (Some 0%nat))) = Some (RootDirectory fv, w1) /\
    MakeTempDirOrDie_impl (ExternalCode := X) "static-pods"
      (RootDirectory fv) w1 = Some (StaticPodPath cv, world (final_state o)) /\
    trace (final_state o) =
      trace (demo_start (Some 0%nat)) ++
      [MakeTempDirOrDie_call "hollow-kubelet." "";
       MakeTempDirOrDie_call "static-pods" (RootDirectory fv);
       Infof_call
         ("Using " +:+ RootDirectory fv +:+ " as root dir for hollow-kubelet")].
Proof.
  cbn zeta. split; [vm_compute; reflexivity|].
  apply (GetHollowKubeletConfig_effects
           (X := demo_code (inl zero_config) None)
           "node-1" 10250 10255 110 0 (demo_start (Some 0%nat))).
  vm_compute. reflexivity.
Defined.

(** The builder on a host that makes directories, with defaults that cannot
    be obtained. *)
Lemma GetHollowKubeletConfig_panics_after_its_effects_witness :
  let X := demo_code (inr "no scheme") None in
  MakeTempDirOrDie_impl (ExternalCode := X) "hollow-kubelet." ""
    (world (demo_start (Some 0%nat)))
    = Some ("/tmp/hollow-kubelet.0", Some 1%nat) /\
  MakeTempDirOrDie_impl (ExternalCode := X) "static-pods"
    "/tmp/hollow-kubelet.0" (Some 1%nat)
    = Some ("/tmp/hollow-kubelet.0/static-pods1", Some 2%nat) /\
  @NewKubeletConfiguration_defaults demo_types X = inr "no scheme" /\
  exists s',
    GetHollowKubeletConfig (X := X) "node-1" 10250 10255 110 0
      (demo_start (Some 0%nat)) = Panicked "no scheme" s' /\
    world s' = Some 2%nat /\
    trace s' =
      trace (demo_start (Some 0%nat)) ++
      [MakeTempDirOrDie_call "hollow-kubelet." "";
       MakeTempDirOrDie_call "static-pods" "/tmp/hollow-kubelet.0";
       Infof_call
         ("Using " +:+ "/tmp/hollow-kubelet.0" +:+
          " as root dir for hollow-kubelet")] /\
    flags_at s' (Some (length (flagsCells (demo_start (Some 0%nat)))))
      = Some (built_flags (X := X) "/tmp/hollow-kubelet.0" "node-1") /\
    configCells s' = configCells (demo_start (Some 0%nat)).
Proof.
  cbn zeta.
  split; [vm_compute; reflexivity|].
  split; [vm_compute; reflexivity|].
  split; [reflexivity|].
  apply (GetHollowKubeletConfig_panics_after_its_effects
           (X := demo_code (inr "no scheme") None)
           "node-1" 10250 10255 110 0 (demo_start (Some 0%nat))
           "/tmp/hollow-kubelet.0" (Some 1%nat)
           "/tmp/hollow-kubelet.0/static-pods1" (Some 2%nat)).
  - vm_compute. reflexivity.
  - vm_compute. reflexivity.
  - reflexivity.
Defined.

Lemma GetHollowKubeletConfig_flags_witness :
  let o :=
    GetHollowKubeletConfig (X := demo_code (inl zero_config) None)
      "node-1" 10250 10255 110 0 (demo_start (Some 0%nat)) in
  o = Returned (Some 0%nat, Some 0%nat) (final_state o) /\
  exists fv,
    flags_at (final_state o) (Some 0%nat) = Some fv /\
    EnableServer fv = true /\
    RegisterNode fv = true /\
    RegisterSchedulable fv = true /\
    Duration (MinimumGCAge fv) = 60000000000%Z /\
    MaxContainerCount fv = 100%Z /\
    MaxPerPodContainerCount fv = 2%Z /\
    (MaxPerPodContainerCount fv <= MaxContainerCount fv)%Z.
Proof.
  cbn zeta. split; [vm_compute; reflexivity|].
  apply (GetHollowKubeletConfig_flags
           (X := demo_code (inl zero_config) None)
           "node-1" 10250 10255 110 0 (demo_start (Some 0%nat))
           (Some 0%nat) (Some 0%nat)).
  vm_compute. reflexivity.
Defined.

Lemma GetHollowKubeletConfig_settings_witness :
  let X := demo_code (inl zero_config) None in
  let o :=
    GetHollowKubeletConfig (X := X) "node-1" 10250 10255 110 0
      (demo_start (Some 0%nat)) in
  o = Returned (Some 0%nat, Some 0%nat) (final_state o) /\
  exists cv,
    config_at (final_state o) (Some 0%nat) = Some cv /\
    Duration (SyncFrequency cv) = 10000000000%Z /\
    Duration (NodeStatusReportFrequency cv) = 60000000000%Z /\
    (Duration (NodeStatusUpdateFrequency cv)
       <= Duration (NodeStatusReportFrequency cv))%Z /\
    Duration (VolumeStatsAggPeriod cv) = 60000000000%Z /\
    Duration (EvictionPressureTransitionPeriod cv) = 300000000000%Z /\
    CgroupRoot cv = "" /\
    CgroupsPerQOS cv = false /\
    KubeletCgroups cv = "/kubelet" /\
    SystemCgroups cv = "" /\
    CPUCFSQuota cv = true /\
    EnableDebuggingHandlers cv = true /\
    EnableControllerAttachDetach cv = false /\
    SerializeImagePulls cv = true /\
    ProtectKernelDefaults cv = false /\
    MaxOpenFiles cv = 1024%Z /\
    HairpinMode cv = @kubeletconfig_HairpinVeth demo_types X /\
    ResolverConfig cv = @kubetypes_ResolvConfDefault demo_types X.
Proof.
  cbn zeta. split; [vm_compute; reflexivity|].
  apply (GetHollowKubeletConfig_settings
           (X := demo_code (inl zero_config) None)
           "node-1" 10250 10255 110 0 (demo_start (Some 0%nat))
           (Some 0%nat) (Some 0%nat)).
  vm_compute. reflexivity.
Defined.

Lemma ProviderID_names_the_node_witness :
  let X := demo_code (inl zero_config) None in
  let run1 :=
    GetHollowKubeletConfig (X := X) "node-1" 10250 10255 110 0
      (demo_start (Some 0%nat)) in
  let run2 :=
    GetHollowKubeletConfig (X := X) "node-2" 10250 10255 110 0
      (demo_start (Some 5%nat)) in
  run1 = Returned (Some 0%nat, Some 0%nat) (final_state run1) /\
  run2 = Returned (Some 0%nat, Some 0%nat) (final_state run2) /\
  exists fv1 fv2,
    flags_at (final_state run1) (Some 0%nat) = Some fv1 /\
    flags_at (final_state run2) (Some 0%nat) = Some fv2 /\
    String.prefix "kubemark://" (ProviderID fv1) = true /\
    String.substring 11 (String.length "node-1") (ProviderID fv1)
      = "node-1" /\
    (ProviderID fv1 = ProviderID fv2 -> "node-1" = "node-2").
Proof.
  cbn zeta.
  split; [vm_compute; reflexivity|].
  split; [vm_compute; reflexivity|].
  apply (ProviderID_names_the_node
           (X := demo_code (inl zero_config) None)
           "node-1" 10250 10255 110 0 (demo_start (Some 0%nat))
           (Some 0%nat) (Some 0%nat) _
           "node-2" 10250 10255 110 0 (demo_start (Some 5%nat))
           (Some 0%nat) (Some 0%nat) _).
  - vm_compute. reflexivity.
  - vm_compute. reflexivity.
Defined.

(** Two builds whose defaults differ in an assigned field only. *)
Lemma GetHollowKubeletConfig_overrides_defaults_witness :
  let X := demo_code (inl zero_config) None in
  let X' := demo_code (inl (set_Address "192.0.2.1" zero_config)) None in
  let o :=
    GetHollowKubeletConfig (X := X) "node-1" 10250 10255 110 0
      (demo_start (Some 0%nat)) in
  let o' :=
    GetHollowKubeletConfig (X := X') "node-1" 10250 10255 110 0
      (demo_start (Some 0%nat)) in
  @MakeTempDirOrDie_impl demo_types X = @MakeTempDirOrDie_impl demo_types X' /\
  @kubeletconfig_HairpinVeth demo_types X
    = @kubeletconfig_HairpinVeth demo_types X' /\
  @kubetypes_ResolvConfDefault demo_types X
    = @kubetypes_ResolvConfDefault demo_types X' /\
  o = Returned (Some 0%nat, Some 0%nat) (final_state o) /\
  o' = Returned (Some 0%nat, Some 0%nat) (final_state o') /\
  exists fv cv fv' cv' c0 c0',
    flags_at (final_state o) (Some 0%nat) = Some fv /\
    config_at (final_state o) (Some 0%nat) = Some cv /\
    flags_at (final_state o') (Some 0%nat) = Some fv' /\
    config_at (final_state o') (Some 0%nat) = Some cv' /\
    @NewKubeletConfiguration_defaults demo_types X = inl c0 /\
    @NewKubeletConfiguration_defaults demo_types X' = inl c0' /\
    OtherFlags fv = OtherFlags (@NewKubeletFlags_defaults demo_types X) /\
    OtherConfiguration cv = OtherConfiguration c0 /\
    OtherFlags fv' = OtherFlags (@NewKubeletFlags_defaults demo_types X') /\
    OtherConfiguration cv' = OtherConfiguration c0' /\
    fv' = set_OtherFlags (OtherFlags fv') fv /\
    cv' = set_OtherConfiguration (OtherConfiguration cv') cv.
Proof.
  cbn zeta.
  split; [reflexivity|]. split; [reflexivity|]. split; [reflexivity|].
  split; [vm_compute; reflexivity|].
  split; [vm_compute; reflexivity|].
  apply (GetHollowKubeletConfig_overrides_defaults
           (demo_code (inl zero_config) None)
           (demo_code (inl (set_Address "192.0.2.1" zero_config)) None)
           "node-1" 10250 10255 110 0 (demo_start (Some 0%nat))).
  - reflexivity.
  - reflexivity.
  - reflexivity.
  - vm_compute. reflexivity.
  - vm_compute. reflexivity.
Defined.

(** The constructor given nil for everything, in a state that holds a
    hollow kubelet already. *)
Lemma NewHollowKubelet_allocates_fresh_witness :
  let X := demo_code (inl zero_config) None in
  exists hk s' h,
    NewHollowKubelet (X := X) None None None None None None None demo_built
      = Returned hk s' /\
    hollow_at demo_built hk = None /\
    hollow_at s' hk = Some h /\
    is_Some (hollow_at demo_built (Some 0%nat)) /\
    hollow_at s' (Some 0%nat) = hollow_at demo_built (Some 0%nat).
Proof.
  cbn zeta.
  destruct (NewHollowKubelet_allocates_fresh
              (X := demo_code (inl zero_config) None)
              None None None None None None None demo_built)
    as (hk & s' & h & Hrun & Hnew & Hh & _ & _ & _ & Hold).
  exists hk, s', h. split; [exact Hrun|]. split; [exact Hnew|].
  split; [exact Hh|].
  assert (is_Some (hollow_at demo_built (Some 0%nat))) as Hsome
    by (eexists; reflexivity).
  split; [exact Hsome|]. exact (Hold (Some 0%nat) Hsome).
Defined.

(** [Run] on a pointer to no hollow kubelet. *)
Lemma Run_stops_short_iff_a_struct_is_missing_witness :
  let X := demo_code (inl zero_config) None in
  hollow_at demo_built (Some 1%nat) = None /\
  Run (X := X) (Some 1%nat) demo_built = Panicked nil_dereference demo_built.
Proof.
  cbn zeta. split; [reflexivity|].
  apply (proj1 (Run_stops_short_iff_a_struct_is_missing
                  (X := demo_code (inl zero_config) None)
                  (Some 1%nat) demo_built)).
  left. reflexivity.
Defined.

(** The structs changed between the constructor and the run. *)
Lemma Run_reads_the_structs_when_called_witness :
  let X := demo_code (inl zero_config) None in
  let program : M unit :=
    hk ← NewHollowKubelet (X := X) (Some 0%nat) (Some 0%nat) None None None
           None None;
    assign_flags (Some 0%nat) (set_HostnameOverride "late");;
    assign_config (Some 0%nat) (set_MaxPods 7);;
    Run (X := X) hk in
  flags_at demo_built (Some 0%nat) = Some zero_flags /\
  config_at demo_built (Some 0%nat) = Some zero_config /\
  RunKubelet_calls (trace (final_state (program demo_built))) =
    RunKubelet_calls (trace demo_built) ++
    [({| Server_KubeletFlags := set_HostnameOverride "late" zero_flags;
         Server_KubeletConfiguration := set_MaxPods 7 zero_config |},
      Some (length (depsCells demo_built)), false)].
Proof.
  cbn zeta. split; [reflexivity|]. split; [reflexivity|].
  apply (Run_reads_the_structs_when_called
           (X := demo_code (inl zero_config) None)
           (Some 0%nat) (Some 0%nat) None None None None None
           (set_HostnameOverride "late") (set_MaxPods 7) demo_built);
    reflexivity.
Defined.

